(** * apk-file-malice: the scan plugin ([scan.go])

    A shallow embedding of the file-info scan plugin: the three output
    parsers ([ParseSsdeepOutput], [ParseTRiDOutput], [ParseExiftoolOutput]),
    the two magic probes ([GetFileMimeType], [GetFileDescription]) with the
    goroutine, the buffered channel and the [select] they are written with,
    and the two scan paths (the command-line action of [main] and the HTTP
    handler [webAvScan]).

    Go strings are byte strings: they are modelled by [string], one [ascii]
    per byte.  A Go [error] is used by the program only through the test
    against [nil] and through its [Error()] text, so it is a record holding
    that text and [option error] is the interface value ([None] is [nil]).
    A nil slice and a nil map are [None]; a run-time panic and a process exit
    ([log.Fatal]) are outcomes of their own.  The [log.Debug] calls only
    write to the log and are left out. *)

From Stdlib Require Import Ascii String.
From stdpp Require Import base option list strings gmap relations.

Local Open Scope stdpp_scope.

(** ** Go values *)

Record error := { Error : string }.

Inductive panic :=
  | IndexOutOfRange (index len : nat)
  | SliceBoundsOutOfRange (low high : nat)
  | NilDereference.

Inductive outcome (A : Type) :=
  | Returns (a : A)
  | Panics (p : panic)
  | Exits (status : nat).
Arguments Returns {A} a.
Arguments Panics {A} p.
Arguments Exits {A} status.

#[global] Instance outcome_ret : MRet outcome := fun A a => Returns a.
#[global] Instance outcome_bind : MBind outcome := fun A B f m =>
  match m with
  | Returns a => f a
  | Panics p => Panics p
  | Exits st => Exits st
  end.

(** [l[i]] with the bounds check of the Go run time. *)
Definition index {A} (l : list A) (i : nat) : outcome A :=
  match l !! i with
  | Some x => Returns x
  | None => Panics (IndexOutOfRange i (length l))
  end.

(** [l[low:]] with the bounds check of the Go run time. *)
Definition slice_from {A} (l : list A) (low : nat) : outcome (list A) :=
  if decide (low ≤ length l) then Returns (drop low l)
  else Panics (SliceBoundsOutOfRange low (length l)).

(** [for _, x := range l { s = body s x }], stopping at the first panic. *)
Fixpoint range_loop {S A} (body : S → A → outcome S) (l : list A) (s : S)
    : outcome S :=
  match l with
  | [] => Returns s
  | x :: l' => s' ← body s x; range_loop body l' s'
  end.

(** ** The [strings] package of the Go library, as far as the program calls it *)

Module strings.

Definition LF : string := String "010" "".

(** [strings.HasPrefix(s, prefix)] *)
Definition HasPrefix (s prefix : string) : bool := String.prefix prefix s.

(** [strings.Contains(s, substr)]: [substr] starts at some byte of [s]. *)
Fixpoint Contains (s substr : string) : bool :=
  HasPrefix s substr ||
  match s with
  | "" => false
  | String _ s' => Contains s' substr
  end.

(** The pieces of [s] between the occurrences of [sep], found from the
    left and not overlapping; [skip] bytes of a separator that has just
    been found are still to be passed over. *)
Fixpoint genSplit (sep : string) (skip : nat) (s : string) : list string :=
  match s with
  | "" => [""]
  | String c s' =>
      match skip with
      | S k => genSplit sep k s'
      | O =>
          if HasPrefix s sep
          then "" :: genSplit sep (String.length sep - 1) s'
          else match genSplit sep 0 s' with
               | piece :: pieces => String c piece :: pieces
               | [] => [String c ""]
               end
      end
  end.

(** [strings.Split(s, sep)] for a separator that is not empty, which is
    how the program calls it ("\n", ":" and ","). *)
Definition Split (s sep : string) : list string := genSplit sep 0 s.

(** [unicode.IsSpace] on the UTF-8 encoding of a rune: the one-byte runes
    are tab, line feed, vertical tab, form feed, carriage return and
    space; the two-byte ones U+0085 and U+00A0; the three-byte ones U+1680,
    U+2000..U+200A, U+2028, U+2029, U+202F, U+205F and U+3000. *)
Definition space1 (c : ascii) : bool := Ascii.is_space c.

Definition space2 (c1 c2 : ascii) : bool :=
  Ascii.eqb c1 "194" && (Ascii.eqb c2 "133" || Ascii.eqb c2 "160").

Definition space3 (c1 c2 c3 : ascii) : bool :=
  (Ascii.eqb c1 "225" && Ascii.eqb c2 "154" && Ascii.eqb c3 "128")
  || (Ascii.eqb c1 "226" && Ascii.eqb c2 "128"
      && ((N.leb 128 (N_of_ascii c3) && N.leb (N_of_ascii c3) 138)
          || Ascii.eqb c3 "168" || Ascii.eqb c3 "169" || Ascii.eqb c3 "175"))
  || (Ascii.eqb c1 "226" && Ascii.eqb c2 "129" && Ascii.eqb c3 "159")
  || (Ascii.eqb c1 "227" && Ascii.eqb c2 "128" && Ascii.eqb c3 "128").

(** Drop the white-space runes at the front of [s]; [two] and [three]
    recognise the encodings of two and of three bytes. *)
Fixpoint trimFront (two : ascii → ascii → bool)
    (three : ascii → ascii → ascii → bool) (s : string) : string :=
  match s with
  | "" => ""
  | String c1 r1 =>
      if space1 c1 then trimFront two three r1
      else match r1 with
           | String c2 r2 =>
               if two c1 c2 then trimFront two three r2
               else match r2 with
                    | String c3 r3 =>
                        if three c1 c2 c3 then trimFront two three r3 else s
                    | "" => s
                    end
           | "" => s
           end
  end.

(** [strings.TrimLeftFunc(s, unicode.IsSpace)] *)
Definition TrimLeft (s : string) : string := trimFront space2 space3 s.

(** [strings.TrimRightFunc(s, unicode.IsSpace)]: the same scan from the
    last byte, the encodings read backwards. *)
Definition TrimRight (s : string) : string :=
  String.rev (trimFront (fun c2 c1 => space2 c1 c2)
                        (fun c3 c2 c1 => space3 c1 c2 c3) (String.rev s)).

(** [strings.TrimSpace(s)], that is [TrimFunc(s, unicode.IsSpace)]. *)
Definition TrimSpace (s : string) : string := TrimRight (TrimLeft s).

End strings.

(** ** The helpers of [go-plugin-utils/utils] the parsers call

    The package is a dependency of the plugin.  Its two membership tests are
    the loops below; its [CamelCase] is passed to [ParseExiftoolOutput] as an
    argument, so what is proved of the parser holds for every key
    normalisation, and [utils.CamelCase] is the model used where an output is
    computed. *)

Module utils.

(** [StringInSlice(a, list)]: some element of [list] equals [a]. *)
Fixpoint StringInSlice (a : string) (list : list string) : bool :=
  match list with
  | [] => false
  | b :: list' => if decide (b = a) then true else StringInSlice a list'
  end.

(** [SliceContainsString(a, list)]: some element of [list] contains [a]. *)
Fixpoint SliceContainsString (a : string) (list : list string) : bool :=
  match list with
  | [] => false
  | b :: list' =>
      if strings.Contains b a then true else SliceContainsString a list'
  end.

Definition isAlnum (c : ascii) : bool :=
  let n := N_of_ascii c in
  (N.leb 48 n && N.leb n 57) || (N.leb 65 n && N.leb n 90)
  || (N.leb 97 n && N.leb n 122).

Definition upper (c : ascii) : ascii :=
  let n := N_of_ascii c in
  if N.leb 97 n && N.leb n 122 then ascii_of_N (n - 32) else c.

(** The maximal runs of letters and digits of [src], every run but the
    first with its first letter in upper case, joined: [first] tells
    whether no run has been met yet, [inrun] whether the byte before was
    part of a run. *)
Fixpoint camel (first inrun : bool) (src : string) : string :=
  match src with
  | "" => ""
  | String c src' =>
      if isAlnum c
      then String (if inrun || first then c else upper c)
                  (camel first true src')
      else camel (first && negb inrun) false src'
  end.

(** [CamelCase(src)] *)
Definition CamelCase (src : string) : string := camel true false src.

End utils.

(** ** The parsers *)

Definition ignoreTags : list string :=
  [ "Directory"; "File Name"; "File Permissions";
    "File Modification Date/Time" ].

(** The body of the loop of [ParseExiftoolOutput]. *)
Definition exiftoolLine (CamelCase : string → string)
    (datas : gmap string string) (line : string)
    : outcome (gmap string string) :=
  let keyvalue := strings.Split line ":" in
  if decide (length keyvalue ≠ 2) then Returns datas
  else
    key ← index keyvalue 0;
    if negb (utils.StringInSlice (strings.TrimSpace key) ignoreTags)
    then
      value ← index keyvalue 1;
      Returns (<[strings.TrimSpace (CamelCase key) := strings.TrimSpace value]> datas)
    else Returns datas.

(** [ParseExiftoolOutput(exifout, err)] *)
Definition ParseExiftoolOutput (CamelCase : string → string)
    (exifout : string) (err : option error)
    : outcome (option (gmap string string)) :=
  match err with
  | Some e => Returns (Some (<["error" := Error e]> ∅))
  | None =>
      let lines := strings.Split exifout strings.LF in
      if utils.SliceContainsString "File not found" lines then Returns None
      else
        datas ← range_loop (exiftoolLine CamelCase) lines ∅;
        Returns (Some datas)
  end.

(** [ParseSsdeepOutput(ssdout, err)] *)
Definition ParseSsdeepOutput (ssdout : string) (err : option error)
    : outcome string :=
  match err with
  | Some e => Returns (Error e)
  | None =>
      let lines := strings.Split ssdout strings.LF in
      if utils.SliceContainsString "No such file or directory" lines
      then Returns ""
      else
        line ← index lines 1;
        let hashAndPath := strings.Split line "," in
        hash ← index hashAndPath 0;
        Returns (strings.TrimSpace hash)
  end.

(** The body of the loop of [ParseTRiDOutput]. *)
Definition tridLine (keepLines : list string) (line : string) : list string :=
  if decide (String.length (strings.TrimSpace line) ≠ 0)
  then keepLines ++ [strings.TrimSpace line]
  else keepLines.

(** [ParseTRiDOutput(tridout, err)] *)
Definition ParseTRiDOutput (tridout : string) (err : option error)
    : outcome (option (list string)) :=
  match err with
  | Some e => Returns (Some [Error e])
  | None =>
      let keepLines := [] in
      let lines := strings.Split tridout strings.LF in
      if utils.SliceContainsString "Error: found no file(s) to analyze!" lines
      then Returns None
      else
        lines ← slice_from lines 6;
        Returns (Some (foldl tridLine keepLines lines))
  end.

(** ** The report and the process-wide holder *)

Record FileMagic := { Mime : string; Description : string }.

Record FileInfo := {
  Magic : FileMagic;
  SSDeep : string;
  TRiD : option (list string);
  Exiftool : option (gmap string string);
  MarkDown : string;
  APKFile : string
}.

(** The two probes are the same text but for the flags they open the
    library with and the field of [fi.Magic] they assign. *)
Inductive detection := MimeType | FileDescription.

#[global] Instance detection_eq_dec : EqDecision detection.
Proof. solve_decision. Defined.

Definition assign (which : detection) (text : string) (m : FileMagic)
    : FileMagic :=
  match which with
  | MimeType => {| Mime := text; Description := Description m |}
  | FileDescription => {| Mime := Mime m; Description := text |}
  end.

(** [ctx.Err()]: [nil] until the deadline has passed. *)
Definition DeadlineExceeded : error :=
  {| Error := "context deadline exceeded" |}.

Definition ctxErr (done : bool) : option error :=
  if done then Some DeadlineExceeded else None.

(** ** One magic probe, as the two threads it is made of

    [GetFileMimeType] and [GetFileDescription] start a goroutine (open the
    library, defer the close, detect, send the result on the channel [c] of
    capacity 1) and then [select] between [ctx.Done()] and [c].  A state
    holds the place each thread has reached, the channel's buffer, whether
    the deadline has passed, the calls made to the detection library so far
    and [fi.Magic]; a failed [magicmime.Open] ends the process through
    [utils.Assert] (a [log.Fatal]). *)

Module probe.

Inductive magic_flag := MAGIC_MIME_TYPE | MAGIC_SYMLINK | MAGIC_ERROR.

Inductive magic_call :=
  | Open (flags : list magic_flag)
  | TypeByFile (path : string)
  | Close.

Definition flags (which : detection) : list magic_flag :=
  match which with
  | MimeType => [MAGIC_MIME_TYPE; MAGIC_SYMLINK; MAGIC_ERROR]
  | FileDescription => [MAGIC_SYMLINK; MAGIC_ERROR]
  end.

(** What the goroutine sends: the detected text and the error. *)
Definition pack : Type := string * option error.

Inductive goroutine :=
  | GOpen
  | GTypeByFile
  | GSend (p : pack)
  | GClose
  | GDone.

Inductive caller :=
  | CSelect
  | CWait
  | CReturnedCancelled (err : option error)
  | CReturned (err : option error).

Record running := Build {
  pc : caller;
  go : goroutine;
  c : option pack;
  done : bool;
  calls : list magic_call;
  magic : FileMagic
}.

Inductive state :=
  | Running (r : running)
  | Exited (status : nat).

Definition start (m : FileMagic) (d : bool) : state :=
  Running (Build CSelect GOpen None d [] m).

(** The text [fi.Magic] receives for a pack taken from the channel. *)
Definition recorded (p : pack) : string :=
  match p.2 with
  | Some e => Error e
  | None => p.1
  end.

Inductive thread_step (which : detection) (path : string)
    : running → state → Prop :=
  | go_open pc c d cs m :
      thread_step which path (Build pc GOpen c d cs m)
        (Running (Build pc GTypeByFile c d (cs ++ [Open (flags which)]) m))
  | go_open_fails pc c d cs m :
      thread_step which path (Build pc GOpen c d cs m) (Exited 1)
  | go_typeByFile pc c d cs m p :
      thread_step which path (Build pc GTypeByFile c d cs m)
        (Running (Build pc (GSend p) c d (cs ++ [TypeByFile path]) m))
  | go_send pc d cs m p :
      thread_step which path (Build pc (GSend p) None d cs m)
        (Running (Build pc GClose (Some p) d cs m))
  | go_close pc c d cs m :
      thread_step which path (Build pc GClose c d cs m)
        (Running (Build pc GDone c d (cs ++ [Close]) m))
  | select_done g c cs m :
      thread_step which path (Build CSelect g c true cs m)
        (Running (Build CWait g c true cs m))
  | select_recv g d cs m p :
      thread_step which path (Build CSelect g (Some p) d cs m)
        (Running (Build (CReturned p.2) g None d cs
                    (assign which (recorded p) m)))
  | wait_recv g d cs m p :
      thread_step which path (Build CWait g (Some p) d cs m)
        (Running (Build (CReturnedCancelled (ctxErr d)) g None d cs m)).

Inductive step (which : detection) (path : string) : relation state :=
  | thread r s :
      thread_step which path r s → step which path (Running r) s
  | deadline pc g c cs m :
      step which path (Running (Build pc g c false cs m))
        (Running (Build pc g c true cs m)).

Definition opens (cs : list magic_call) : nat :=
  length (List.filter (λ call, if call is Open _ then true else false) cs).

Definition closes (cs : list magic_call) : nat :=
  length (List.filter (λ call, if call is Close then true else false) cs).

Definition returned (pc : caller) : bool :=
  match pc with
  | CReturnedCancelled _ | CReturned _ => true
  | CSelect | CWait => false
  end.

(** The error a caller that has returned hands back. *)
Definition result (pc : caller) : option error :=
  match pc with
  | CReturnedCancelled err | CReturned err => err
  | CSelect | CWait => None
  end.

End probe.

(** ** The scan paths

    The two paths run in one thread but for the goroutine inside each probe,
    so a probe is taken here by what it leaves behind: the channel was
    received from ([Delivers], the deadline perhaps passing before the probe
    returns), the deadline won the [select] ([Expires]), or the library could
    not be opened ([OpenFails]).  What the detection library, the external
    tools and the file system answer is given by [env] ([detect E n which]
    is what the probe [which] meets when [n] probes were made before it);
    [world] is what the process changes. *)

Inductive probe_event :=
  | Delivers (p : probe.pack) (late : bool)
  | Expires
  | OpenFails.

Inductive invocation :=
  | MagicProbe (which : detection) (path : string)
  | Command (cmd : string) (args : list string).

Record env := {
  detect : nat → detection → probe_event;
  run : string → list string → string * option error;
  stat : string → bool;
  tempFile : string + error;
  readAll : option error;
  tmpWrite : option error;
  tmpClose : option error
}.

Inductive written :=
  | Text (line : string)
  | Json (fileInfo : FileInfo).

Record response := {
  status : option nat;
  header : list (string * string);
  body : list written
}.

Record world := {
  fi : FileInfo;
  ctxDone : bool;
  invocations : list invocation;
  stdout : list string;
  w : response
}.

Record upload := { Filename : string; content : string }.
Record request := { malware : option upload }.

Definition prog (A : Type) : Type := world → outcome A * world.

#[global] Instance prog_ret : MRet prog := λ A a σ, (Returns a, σ).
#[global] Instance prog_bind : MBind prog := λ A B f m σ,
  match m σ with
  | (Returns a, σ') => f a σ'
  | (Panics p, σ') => (Panics p, σ')
  | (Exits st, σ') => (Exits st, σ')
  end.

Definition lift {A} (o : outcome A) : prog A := λ σ, (o, σ).

(** [log.Fatal] and a failed [utils.Assert] *)
Definition Fatal {A} : prog A := lift (Exits 1).

Definition probes (σ : world) : nat :=
  length (List.filter (λ i, if i is MagicProbe _ _ then true else false)
            (invocations σ)).

Definition record (i : invocation) : prog () := λ σ,
  (Returns (),
   {| fi := fi σ; ctxDone := ctxDone σ;
      invocations := invocations σ ++ [i];
      stdout := stdout σ; w := w σ |}).

Definition setDone (d : bool) : prog () := λ σ,
  (Returns (),
   {| fi := fi σ; ctxDone := d; invocations := invocations σ;
      stdout := stdout σ; w := w σ |}).

Definition setMagic (m : FileMagic) : prog () := λ σ,
  (Returns (),
   {| fi := {| Magic := m; SSDeep := SSDeep (fi σ); TRiD := TRiD (fi σ);
               Exiftool := Exiftool (fi σ); MarkDown := MarkDown (fi σ);
               APKFile := APKFile (fi σ) |};
      ctxDone := ctxDone σ; invocations := invocations σ;
      stdout := stdout σ; w := w σ |}).

Definition Println (line : string) : prog () := λ σ,
  (Returns (),
   {| fi := fi σ; ctxDone := ctxDone σ; invocations := invocations σ;
      stdout := stdout σ ++ [line]; w := w σ |}).

Definition setResponse (r : response) : prog () := λ σ,
  (Returns (),
   {| fi := fi σ; ctxDone := ctxDone σ; invocations := invocations σ;
      stdout := stdout σ; w := r |}).

Definition get {A} (f : world → A) : prog A := λ σ, (Returns (f σ), σ).

(** [context.WithTimeout(context.Background(), ...)] *)
Definition WithTimeout : prog () := setDone false.

(** [ctx.Err()] *)
Definition ctx_Err : prog (option error) := get (λ σ, ctxErr (ctxDone σ)).

(** A probe, by the event it meets. *)
Definition probeCall (E : env) (which : detection) (path : string)
    : prog (option error) :=
  n ← get probes;
  record (MagicProbe which path);;
  match detect E n which with
  | OpenFails => Fatal
  | Expires => setDone true;; ctx_Err
  | Delivers p late =>
      m ← get (λ σ, Magic (fi σ));
      d ← get ctxDone;
      setMagic (assign which (probe.recorded p) m);;
      setDone (d || late);;
      mret p.2
  end.

(** [GetFileMimeType(ctx, path)] *)
Definition GetFileMimeType (E : env) (path : string) : prog (option error) :=
  probeCall E MimeType path.

(** [GetFileDescription(ctx, path)] *)
Definition GetFileDescription (E : env) (path : string)
    : prog (option error) :=
  probeCall E FileDescription path.

(** [utils.RunCommand(ctx, cmd, args...)] *)
Definition RunCommand (E : env) (cmd : string) (args : list string)
    : prog (string * option error) :=
  record (Command cmd args);; mret (run E cmd args).

Definition StatusBadRequest : nat := 400.
Definition StatusOK : nat := 200.

(** [w.WriteHeader(code)]: the first status written stays. *)
Definition WriteHeader (code : nat) : prog () :=
  r ← get w;
  if status r is None
  then setResponse {| status := Some code; header := header r; body := body r |}
  else mret ().

(** [w.Header().Set(key, value)]: of no effect once the status is written. *)
Definition HeaderSet (key value : string) : prog () :=
  r ← get w;
  if status r is None
  then setResponse {| status := None; header := header r ++ [(key, value)];
                      body := body r |}
  else mret ().

(** A write to [w]: the status is 200 if none was written before. *)
Definition Write (item : written) : prog () :=
  r ← get w;
  setResponse {| status := Some (default StatusOK (status r));
                 header := header r; body := body r ++ [item] |}.

(** [r.FormFile(key)] for the one field the handler asks for. *)
Definition FormFile (r : request)
    : option string * option string * option error :=
  match malware r with
  | Some u => (Some (content u), Some (Filename u), None)
  | None => (None, None, Some {| Error := "http: no such file" |})
  end.

(** The use of a value that may be [nil]. *)
Definition deref {A} (x : option A) : prog A :=
  match x with
  | Some a => mret a
  | None => lift (Panics NilDereference)
  end.

(** [if err != nil { log.Fatal(err) }] *)
Definition fatalIf (err : option error) : prog () :=
  if err is Some _ then Fatal else mret ().

(** [webAvScan(w, r)].  The deferred calls ([file.Close], [os.Remove],
    [cancel]) change nothing that is kept here; of [defer file.Close()] what
    remains is the use of [file] when the statement is run. *)
Definition webAvScan (E : env) (CamelCase : string → string) (r : request)
    : prog () :=
  let '(file, header, err) := FormFile r in
  (if err is Some _
   then WriteHeader StatusBadRequest;;
        Write (Text "Please supply a valid file to scan.")
   else mret ());;
  file ← deref file;
  _ ← deref header;
  tmpfile ← match tempFile E with
            | inl name => mret name
            | inr _ => Fatal
            end;
  fatalIf (readAll E);;
  fatalIf (tmpWrite E);;
  fatalIf (tmpClose E);;
  WithTimeout;;
  let path := tmpfile in
  GetFileMimeType E path;;
  GetFileDescription E path;;
  '(apkJSON, err) ← RunCommand E "java" ["-jar"; "apkfile.jar"; path];
  fatalIf err;;
  magic ← get (λ σ, Magic (fi σ));
  '(out, err) ← RunCommand E "ssdeep" [path];
  ssdeep ← lift (ParseSsdeepOutput out err);
  '(out, err) ← RunCommand E "trid" [path];
  trid ← lift (ParseTRiDOutput out err);
  '(out, err) ← RunCommand E "exiftool" [path];
  exiftool ← lift (ParseExiftoolOutput CamelCase out err);
  let fileInfo :=
    {| Magic := magic; SSDeep := ssdeep; TRiD := trid; Exiftool := exiftool;
       MarkDown := ""; APKFile := apkJSON |} in
  HeaderSet "Content-Type" "application/json; charset=UTF-8";;
  WriteHeader StatusOK;;
  Write (Json fileInfo).

(** The action of the command line ([app.Action] in [main]) up to the
    assembled report, which it hands to the sinks (the table, the index
    store, the webhook, the standard output); [mime] is the flag of that
    name and [args] the arguments of the command. *)
Definition appAction (E : env) (CamelCase : string → string) (mime : bool)
    (args : list string) : prog (option FileInfo) :=
  match args with
  | [] => Fatal
  | path :: _ =>
      WithTimeout;;
      (if stat E path then mret () else Fatal);;
      if mime
      then
        GetFileMimeType E path;;
        m ← get (λ σ, Mime (Magic (fi σ)));
        Println m;;
        mret None
      else
        err ← GetFileMimeType E path;
        ctxerr ← ctx_Err;
        (if err is Some _
         then if ctxerr is None
              then GetFileMimeType E path;; mret ()
              else mret ()
         else mret ());;
        err ← GetFileDescription E path;
        ctxerr ← ctx_Err;
        (if err is Some _
         then if ctxerr is None
              then GetFileDescription E path;; mret ()
              else mret ()
         else mret ());;
        '(apkJSON, err) ← RunCommand E "java" ["-jar"; "apkfile.jar"; path];
        fatalIf err;;
        magic ← get (λ σ, Magic (fi σ));
        '(out, err) ← RunCommand E "ssdeep" [path];
        ssdeep ← lift (ParseSsdeepOutput out err);
        '(out, err) ← RunCommand E "trid" [path];
        trid ← lift (ParseTRiDOutput out err);
        '(out, err) ← RunCommand E "exiftool" [path];
        exiftool ← lift (ParseExiftoolOutput CamelCase out err);
        mret (Some {| Magic := magic; SSDeep := ssdeep; TRiD := trid;
                      Exiftool := exiftool; MarkDown := "";
                      APKFile := apkJSON |})
  end.

(** ** The reading of the metadata lines by their colons

    [cutByte c s] cuts [s] at its first byte [c].  [firstColonLine] is the
    loop body the specification words: the line is cut at its first colon,
    whatever follows it.  [oneColonLine] keeps a line only when exactly one
    colon occurs in it. *)

Fixpoint cutByte (c : ascii) (s : string) : option (string * string) :=
  match s with
  | "" => None
  | String a s' =>
      if decide (a = c) then Some ("", s')
      else match cutByte c s' with
           | Some (before, after) => Some (String a before, after)
           | None => None
           end
  end.

Definition entry (CamelCase : string → string) (datas : gmap string string)
    (key value : string) : gmap string string :=
  if utils.StringInSlice (strings.TrimSpace key) ignoreTags then datas
  else <[strings.TrimSpace (CamelCase key) := strings.TrimSpace value]> datas.

Definition firstColonLine (CamelCase : string → string)
    (datas : gmap string string) (line : string) : gmap string string :=
  match cutByte ":" line with
  | Some (key, value) => entry CamelCase datas key value
  | None => datas
  end.

Definition oneColonLine (CamelCase : string → string)
    (datas : gmap string string) (line : string) : gmap string string :=
  match cutByte ":" line with
  | Some (key, value) =>
      if cutByte ":" value is None then entry CamelCase datas key value
      else datas
  | None => datas
  end.

(** ** Sample outputs of the tools *)

Definition trid_sample : string :=
  "" +:+ strings.LF +:+
  "TrID/32 - File Identifier v2.24 - (C) 2003-16 By M.Pontello" +:+ strings.LF +:+
  "Definitions found:  9875" +:+ strings.LF +:+
  "Analyzing..." +:+ strings.LF +:+
  "" +:+ strings.LF +:+
  "Collecting data from file: /malware/sample" +:+ strings.LF +:+
  " 31.0% (.EXE) Win32 Executable MS Visual C++ (generic) (31206/45/13)" +:+ strings.LF +:+
  " 27.4% (.EXE) Win64 Executable (generic) (27625/18/4)" +:+ strings.LF +:+
  "  " +:+ strings.LF +:+
  "  4.4% (.EXE) Win32 Executable (generic) (4508/7/1)" +:+ strings.LF.


Definition exiftool_sample : string :=
  "ExifTool Version Number         : 10.65" +:+ strings.LF +:+
  "File Name                       : sample.exe" +:+ strings.LF +:+
  "Directory                       : /malware" +:+ strings.LF +:+
  "File Size                       : 40 kB" +:+ strings.LF +:+
  "File Modification Date/Time     : 2017:10:31 12:00:00+00:00" +:+ strings.LF +:+
  "File Permissions                : rw-r--r--" +:+ strings.LF +:+
  "File Type                       : Win32 EXE" +:+ strings.LF +:+
  "Time Stamp                      : 2004:08:04 06:01:37+00:00" +:+ strings.LF.

Definition timestamp_line : string :=
  "Create Date                     : 2017:01:01 10:00:00".

(** ** What holds of a probe in every state it reaches *)

Module probe_inv.
Import probe.

(** The calls made to the library, by the place the goroutine has reached,
    and the channel, full exactly between the send and the receive. *)
Definition goroutine_ok (which : detection) (path : string) (r : running)
    : Prop :=
  match go r with
  | GOpen => calls r = [] ∧ c r = None ∧ returned (pc r) = false
  | GTypeByFile =>
      calls r = [Open (flags which)] ∧ c r = None ∧ returned (pc r) = false
  | GSend _ =>
      calls r = [Open (flags which); TypeByFile path] ∧ c r = None
      ∧ returned (pc r) = false
  | GClose =>
      calls r = [Open (flags which); TypeByFile path]
      ∧ (c r = None ↔ returned (pc r) = true)
  | GDone =>
      calls r = [Open (flags which); TypeByFile path; Close]
      ∧ (c r = None ↔ returned (pc r) = true)
  end.

(** The holder and the deadline, by the place the caller has reached;
    [m0] is the holder the probe started with. *)
Definition caller_ok (which : detection) (m0 : FileMagic) (r : running)
    : Prop :=
  match pc r with
  | CSelect => magic r = m0
  | CWait => done r = true ∧ magic r = m0
  | CReturnedCancelled err =>
      done r = true ∧ err = Some DeadlineExceeded ∧ magic r = m0
  | CReturned err =>
      ∃ p, err = p.2 ∧ magic r = assign which (recorded p) m0
  end.

Definition invariant (which : detection) (path : string) (m0 : FileMagic)
    (s : state) : Prop :=
  match s with
  | Running r => goroutine_ok which path r ∧ caller_ok which m0 r
  | Exited _ => True
  end.

(** The steps each thread still has before it. *)
Definition weight (r : running) : nat :=
  match go r with
  | GOpen => 4 | GTypeByFile => 3 | GSend _ => 2 | GClose => 1 | GDone => 0
  end +
  match pc r with
  | CSelect => 2 | CWait => 1 | CReturnedCancelled _ | CReturned _ => 0
  end.

(** The state at the end of a run in which the deadline passes while the
    detection is in flight: the library is opened, the deadline passes,
    the caller takes [ctx.Done()], the detection ends and its result is
    sent, and the caller receives it and returns. *)
Definition cancelled_state (which : detection) (path : string)
    (m0 : FileMagic) : running :=
  Build (CReturnedCancelled (Some DeadlineExceeded)) GClose None true
    [Open (flags which); TypeByFile path] m0.

End probe_inv.

(** ** Sample runs of the scan paths *)

Definition sample_cancelled : probe.running :=
  probe_inv.cancelled_state MimeType "/malware/sample.apk"
    {| Mime := ""; Description := "" |}.

Definition ssdeep_sample : string :=
  "ssdeep,1.1--blocksize:hash:hash,filename" +:+ strings.LF +:+
  "768:15jQ4nVHQaeO379u4XckKVCsknBN9A4hUnDxDiNZ957ZpK0IUUiM95Zdz:15jQ4nVHQaeO9uwckKuBN9A4UnDxcbFi," +:+
  "/malware/sample" +:+ strings.LF.

(** What the tools print for the sample, each invocation succeeding. *)
Definition sample_tools (cmd : string) (args : list string)
    : string * option error :=
  if decide (cmd = "java") then ("{}", None)
  else if decide (cmd = "ssdeep") then (ssdeep_sample, None)
  else if decide (cmd = "trid") then (trid_sample, None)
  else if decide (cmd = "exiftool") then (exiftool_sample, None)
  else ("", Some {| Error := "exec: executable file not found in $PATH" |}).

Definition sample_env (events : nat → detection → probe_event) : env :=
  {| detect := events; run := sample_tools; stat := λ _, true;
     tempFile := inl "/malware/web_081"; readAll := None;
     tmpWrite := None; tmpClose := None |}.

Definition blank : response := {| status := None; header := []; body := [] |}.

(** The process before its first scan. *)
Definition fresh : world :=
  {| fi := {| Magic := {| Mime := ""; Description := "" |}; SSDeep := "";
              TRiD := None; Exiftool := None; MarkDown := "";
              APKFile := "" |};
     ctxDone := false; invocations := []; stdout := []; w := blank |}.

Definition sample_request : request :=
  {| malware := Some {| Filename := "sample.apk"; content := "PK" |} |}.

(** The number of probes of one kind among the invocations made. *)
Definition attempts (which : detection) (σ : world) : nat :=
  length (List.filter
            (λ i, if i is MagicProbe which' _
                  then bool_decide (which' = which) else false)
            (invocations σ)).

Definition detected (which : detection) : probe.pack :=
  match which with
  | MimeType => ("application/zip", None)
  | FileDescription => ("Zip archive data, at least v2.0 to extract", None)
  end.

(** The first probe fails with an error of the library, the deadline not
    passed; the later ones detect. *)
Definition transient (n : nat) (which : detection) : probe_event :=
  match n with
  | 0 => Delivers ("", Some {| Error := "magic: could not read the file" |})
           false
  | _ => Delivers (detected which) false
  end.

(** Every probe detects. *)
Definition detecting (n : nat) (which : detection) : probe_event :=
  Delivers (detected which) false.

(** The deadline passes during every probe. *)
Definition expiring (n : nat) (which : detection) : probe_event := Expires.

(** The world a later request of the same process starts in: a response
    writer of its own, the rest as the process left it. *)
Definition next_request (σ : world) : world :=
  {| fi := fi σ; ctxDone := ctxDone σ; invocations := invocations σ;
     stdout := stdout σ; w := blank |}.

(** The process after a first request whose probes both detect, and the
    world its next request starts in. *)
Definition first_scan : world :=
  (webAvScan (sample_env detecting) utils.CamelCase sample_request fresh).2.

Definition after_first_scan : world := next_request first_scan.

(** The process after a second request, whose probes the deadline beats. *)
Definition second_scan : world :=
  (webAvScan (sample_env expiring) utils.CamelCase sample_request
     after_first_scan).2.

(** The world the handler leaves when the field [malware] is missing. *)
Definition rejected (σ : world) : world :=
  {| fi := fi σ; ctxDone := ctxDone σ; invocations := invocations σ;
     stdout := stdout σ;
     w := {| status := Some (default StatusBadRequest (status (w σ)));
             header := header (w σ);
             body := body (w σ)
                     ++ [Text "Please supply a valid file to scan."] |} |}.

(** ** Further readings of the outputs *)

(** The text of [s] before its first byte [c], all of [s] when it has
    none. *)
Definition upTo (c : ascii) (s : string) : string :=
  match cutByte c s with
  | Some (before, _) => before
  | None => s
  end.

Definition ssdeep_missing : string :=
  "ssdeep: /malware/gone: No such file or directory".

Definition trid_missing : string :=
  "" +:+ strings.LF +:+
  "TrID/32 - File Identifier v2.24 - (C) 2003-16 By M.Pontello" +:+ strings.LF +:+
  "" +:+ strings.LF +:+
  "Error: found no file(s) to analyze!" +:+ strings.LF.

Definition exiftool_missing : string :=
  "File not found: /malware/gone" +:+ strings.LF.


(** The six lines [trid] prints before its candidates, and nothing more. *)
Definition banner_only : string :=
  "" +:+ strings.LF +:+
  "TrID/32 - File Identifier v2.24 - (C) 2003-16 By M.Pontello" +:+ strings.LF +:+
  "Definitions found:  9875" +:+ strings.LF +:+
  "Analyzing..." +:+ strings.LF +:+
  "" +:+ strings.LF +:+
  "Collecting data from file: /malware/sample".

(** The header [webAvScan] sets before the report. *)
Definition contentType : string * string :=
  ("Content-Type", "application/json; charset=UTF-8").

(** The invocations of a scan of [path] once its probes are made, in the
    order of the program. *)
Definition toolCommands (path : string) : list invocation :=
  [ Command "java" ["-jar"; "apkfile.jar"; path];
    Command "ssdeep" [path]; Command "trid" [path];
    Command "exiftool" [path] ].

(** The archive tool fails; the other tools answer as for the sample. *)
Definition java_fails (cmd : string) (args : list string)
    : string * option error :=
  if decide (cmd = "java")
  then ("Error: Unable to access jarfile apkfile.jar",
        Some {| Error := "exit status 1" |})
  else sample_tools cmd args.

Definition java_fails_env : env :=
  {| detect := detecting; run := java_fails; stat := λ _, true;
     tempFile := inl "/malware/web_081"; readAll := None;
     tmpWrite := None; tmpClose := None |}.

(** [ssdeep] prints its header only, with no line feed. *)
Definition ssdeep_cut (cmd : string) (args : list string)
    : string * option error :=
  if decide (cmd = "ssdeep")
  then ("ssdeep,1.1--blocksize:hash:hash,filename", None)
  else sample_tools cmd args.

Definition ssdeep_cut_env : env :=
  {| detect := detecting; run := ssdeep_cut; stat := λ _, true;
     tempFile := inl "/malware/web_081"; readAll := None;
     tmpWrite := None; tmpClose := None |}.

(** Two reports, or two states of the holder, that differ in the magic field
    at most. *)
Definition sameButMagic (a b : FileInfo) : Prop :=
  SSDeep a = SSDeep b ∧ TRiD a = TRiD b ∧ Exiftool a = Exiftool b
  ∧ MarkDown a = MarkDown b ∧ APKFile a = APKFile b.

(** The process after the action of the command line on the sample, the
    first probe failing. *)
Definition retried : outcome (option FileInfo) * world :=
  appAction (sample_env transient) utils.CamelCase false
    ["/malware/sample.apk"] fresh.

(** * Properties *)

#[local] Set Warnings "-clear-no-such-hyp".

(** ** Splitting *)

Lemma Split_cutByte c s :
  strings.Split s (String c "") =
  match cutByte c s with
  | Some (before, after) => before :: strings.Split after (String c "")
  | None => [s]
  end.
Proof.
  unfold strings.Split. induction s as [|a s IH]; [done|].
  cbn [strings.genSplit cutByte strings.HasPrefix String.prefix String.length].
  destruct (ascii_dec c a) as [->|Hne].
  - rewrite decide_True by done. by destruct s.
  - rewrite decide_False by congruence. rewrite IH.
    by destruct (cutByte c s) as [[before after]|].
Qed.

Lemma Split_length c s : 0 < length (strings.Split s (String c "")).
Proof.
  rewrite Split_cutByte. destruct (cutByte c s) as [[??]|]; simpl; lia.
Qed.

(** A string with no line feed is one line. *)
Lemma Split_one_line s :
  cutByte "010" s = None → strings.Split s strings.LF = [s].
Proof. intros H. unfold strings.LF. by rewrite Split_cutByte, H. Qed.

(** ** The loops of the parsers *)

Lemma tridLine_foldl lines keepLines :
  foldl tridLine keepLines lines =
  keepLines ++ filter (λ l, l ≠ "") (strings.TrimSpace <$> lines).
Proof.
  revert keepLines.
  induction lines as [|line lines IH]; intros keepLines; simpl.
  - by rewrite app_nil_r.
  - rewrite IH. unfold tridLine.
    destruct (strings.TrimSpace line) as [|a t] eqn:Ht; simpl.
    + by rewrite filter_cons_False by naive_solver.
    + rewrite filter_cons_True by done. by rewrite <- app_assoc.
Qed.

Lemma exiftoolLine_oneColon CamelCase datas line :
  exiftoolLine CamelCase datas line =
  Returns (oneColonLine CamelCase datas line).
Proof.
  unfold exiftoolLine, oneColonLine.
  rewrite (Split_cutByte ":" line).
  destruct (cutByte ":" line) as [[key value]|]; [|done].
  rewrite (Split_cutByte ":" value).
  destruct (cutByte ":" value) as [[v1 v2]|].
  - pose proof (Split_length ":" v2).
    rewrite decide_True; [done|]. simpl. lia.
  - rewrite decide_False by (simpl; lia).
    change (index [key; value] 0) with (Returns key).
    change (index [key; value] 1) with (Returns value).
    unfold entry, mbind, outcome_bind.
    by destruct (utils.StringInSlice (strings.TrimSpace key) ignoreTags).
Qed.

Lemma range_loop_total {S A} (f : S → A → S) body (l : list A) (s : S) :
  (∀ s x, body s x = Returns (f s x)) →
  range_loop body l s = Returns (foldl f s l).
Proof.
  intros Hbody. revert s.
  induction l as [|x l IH]; intros s; simpl; [done|].
  rewrite Hbody. simpl. apply IH.
Qed.

Lemma ParseExiftoolOutput_oneColon CamelCase exifout :
  ParseExiftoolOutput CamelCase exifout None =
  let lines := strings.Split exifout strings.LF in
  if utils.SliceContainsString "File not found" lines then Returns None
  else Returns (Some (foldl (oneColonLine CamelCase) ∅ lines)).
Proof.
  unfold ParseExiftoolOutput. cbv zeta.
  destruct (utils.SliceContainsString _ _); [done|].
  by rewrite (range_loop_total (oneColonLine CamelCase))
    by apply exiftoolLine_oneColon.
Qed.

(** The metadata parser never faults. *)
Lemma ParseExiftoolOutput_total CamelCase exifout err :
  ∃ datas, ParseExiftoolOutput CamelCase exifout err = Returns datas.
Proof.
  destruct err as [e|]; [by eexists|].
  rewrite ParseExiftoolOutput_oneColon. cbv zeta.
  destruct (utils.SliceContainsString _ _); by eexists.
Qed.

(** The fuzzy-hash parser faults exactly on an output of one line that does
    not hold the diagnostic. *)
Lemma ParseSsdeepOutput_one_line ssdout :
  cutByte "010" ssdout = None →
  strings.Contains ssdout "No such file or directory" = false →
  ParseSsdeepOutput ssdout None = Panics (IndexOutOfRange 1 1).
Proof.
  intros Hline Hdiag. unfold ParseSsdeepOutput.
  rewrite Split_one_line by done. simpl. by rewrite Hdiag.
Qed.

Lemma ParseSsdeepOutput_two_lines ssdout :
  is_Some (cutByte "010" ssdout) →
  ∃ digest, ParseSsdeepOutput ssdout None = Returns digest.
Proof.
  intros [[l1 rest] Hcut]. unfold ParseSsdeepOutput, strings.LF.
  rewrite Split_cutByte, Hcut.
  destruct (utils.SliceContainsString _ _); [by eexists|].
  rewrite (Split_cutByte "010" rest).
  destruct (cutByte "010" rest) as [[l2 rest']|]; simpl.
  - rewrite (Split_cutByte "," l2).
    destruct (cutByte "," l2) as [[??]|]; by eexists.
  - rewrite (Split_cutByte "," rest).
    destruct (cutByte "," rest) as [[??]|]; by eexists.
Qed.

(** The identification parser faults exactly on an output of fewer than six
    lines that does not hold the diagnostic. *)
Lemma ParseTRiDOutput_short tridout :
  let lines := strings.Split tridout strings.LF in
  utils.SliceContainsString "Error: found no file(s) to analyze!" lines = false →
  length lines < 6 →
  ParseTRiDOutput tridout None =
  Panics (SliceBoundsOutOfRange 6 (length lines)).
Proof.
  intros lines Hdiag Hlen. unfold ParseTRiDOutput. fold lines.
  rewrite Hdiag. unfold slice_from. by rewrite decide_False by lia.
Qed.

Lemma StringInSlice_elem_of a l : utils.StringInSlice a l = true ↔ a ∈ l.
Proof.
  induction l as [|b l IH]; simpl.
  - split; [done|]. by intros ?%elem_of_nil.
  - rewrite elem_of_cons. destruct (decide (b = a)) as [->|Hne].
    + naive_solver.
    + rewrite IH. naive_solver.
Qed.

(** What [cutByte] returns are the text before the first [c] and the text
    after it. *)
Lemma cutByte_Some c s before after :
  cutByte c s = Some (before, after) →
  s = before +:+ String c after ∧ cutByte c before = None.
Proof.
  revert before. induction s as [|a s IH]; intros before; simpl; [done|].
  destruct (decide (a = c)) as [->|Hne].
  - by intros [= <- <-].
  - destruct (cutByte c s) as [[b' a']|]; [|done].
    intros [= <- <-]. destruct (IH b' eq_refl) as [-> Hb]. simpl.
    by rewrite decide_False, Hb by done.
Qed.

Lemma Split_two_parts line key value :
  strings.Split line ":" = [key; value] ↔
  cutByte ":" line = Some (key, value) ∧ cutByte ":" value = None.
Proof.
  rewrite (Split_cutByte ":" line).
  destruct (cutByte ":" line) as [[k v]|]; [|naive_solver].
  rewrite (Split_cutByte ":" v).
  destruct (cutByte ":" v) as [[v1 v2]|] eqn:Hv.
  - pose proof (Split_length ":" v2).
    destruct (strings.Split v2 ":"); simpl in *; [lia|]. naive_solver.
  - split; [by intros [= -> ->]|]. by intros [[= -> ->] _].
Qed.

(** Every entry the loop adds comes from a line of exactly two parts whose
    trimmed key is not denied. *)
Lemma oneColonLine_foldl_lookup CamelCase lines datas key value :
  foldl (oneColonLine CamelCase) datas lines !! key = Some value →
  datas !! key = Some value ∨
  ∃ line k v, line ∈ lines ∧ strings.Split line ":" = [k; v] ∧
    (strings.TrimSpace k ∉ ignoreTags) ∧
    key = strings.TrimSpace (CamelCase k) ∧ value = strings.TrimSpace v.
Proof.
  revert datas. induction lines as [|line lines IH]; intros datas; simpl.
  { by left. }
  intros [Hd|(l & k & v & Hl & Hrest)]%IH; last first.
  { right. exists l, k, v. split; [apply elem_of_cons; by right|done]. }
  revert Hd. unfold oneColonLine.
  destruct (cutByte ":" line) as [[k v]|] eqn:Hline; [|by left].
  destruct (cutByte ":" v) as [?|] eqn:Hv; [by left|].
  unfold entry.
  destruct (utils.StringInSlice _ _) eqn:Hdenied; [by left|].
  rewrite lookup_insert. case_decide as Hkey; [|by left].
  intros [= <-]. right. exists line, k, v. split_and!; try done.
  - apply elem_of_cons. by left.
  - by apply Split_two_parts.
  - intros Hin%StringInSlice_elem_of. congruence.
Qed.

(** ** The claims on the parsers *)

(** C7: with an invocation error, whatever the raw output, the fuzzy-hash
    parser returns the error's text, the identification parser the sequence
    of that one text, and the metadata parser the mapping of the one key
    "error" to that text; none of them faults. *)
Theorem parsers_record_the_invocation_error CamelCase raw (e : error) :
  ParseSsdeepOutput raw (Some e) = Returns (Error e)
  ∧ ParseTRiDOutput raw (Some e) = Returns (Some [Error e])
  ∧ ParseExiftoolOutput CamelCase raw (Some e)
    = Returns (Some {["error" := Error e]}).
Proof. done. Qed.

(** C1: on the empty output of a successful invocation the fuzzy-hash
    parser faults reading its second line and the identification parser
    faults dropping its six banner lines; so does each of them on any output
    of one line without the diagnostic, the identification parser on any of
    fewer than six lines; the metadata parser never faults. *)
Theorem parsers_fault_on_truncated_output :
  ParseSsdeepOutput "" None = Panics (IndexOutOfRange 1 1)
  ∧ ParseTRiDOutput "" None = Panics (SliceBoundsOutOfRange 6 1)
  ∧ ParseSsdeepOutput "ssdeep,1.1--blocksize:hash:hash,filename" None
    = Panics (IndexOutOfRange 1 1)
  ∧ ParseTRiDOutput
      ("TrID/32 - File Identifier v2.24" +:+ strings.LF +:+
       "Definitions found:  9875" +:+ strings.LF +:+ "Analyzing...") None
    = Panics (SliceBoundsOutOfRange 6 3)
  ∧ ∀ CamelCase exifout err,
      ∃ datas, ParseExiftoolOutput CamelCase exifout err = Returns datas.
Proof. split_and!; [done..|]. apply ParseExiftoolOutput_total. Qed.

(** C6: on a successful invocation whose output holds no no-files
    diagnostic and has a line after the six of the banner, the identification
    parser returns the lines after the first six, each trimmed, the blank
    ones left out, in the order of the output. *)
Theorem ParseTRiDOutput_keeps_ranked_lines tridout :
  utils.SliceContainsString "Error: found no file(s) to analyze!"
    (strings.Split tridout strings.LF) = false →
  6 < length (strings.Split tridout strings.LF) →
  ParseTRiDOutput tridout None =
  Returns (Some (filter (λ l, l ≠ "")
                   (strings.TrimSpace <$>
                      drop 6 (strings.Split tridout strings.LF)))).
Proof.
  intros Hdiag Hlen. unfold ParseTRiDOutput. rewrite Hdiag.
  unfold slice_from. rewrite decide_True by lia. simpl.
  by rewrite tridLine_foldl.
Qed.

Lemma ParseTRiDOutput_keeps_ranked_lines_sample :
  ParseTRiDOutput trid_sample None =
  Returns (Some
    [ "31.0% (.EXE) Win32 Executable MS Visual C++ (generic) (31206/45/13)";
      "27.4% (.EXE) Win64 Executable (generic) (27625/18/4)";
      "4.4% (.EXE) Win32 Executable (generic) (4508/7/1)" ]).
Proof.
  rewrite (ParseTRiDOutput_keeps_ranked_lines trid_sample).
  - reflexivity.
  - reflexivity.
  - vm_compute. lia.
Defined.

Lemma Contains_byte c s :
  strings.Contains s (String c "") = true ↔ is_Some (cutByte c s).
Proof.
  induction s as [|a s IH].
  - split; [done|]. by intros [? [=]].
  - cbn [strings.Contains strings.HasPrefix String.prefix cutByte].
    destruct (ascii_dec c a) as [->|Hne].
    + rewrite decide_True by done. by destruct s.
    + rewrite decide_False by congruence. cbn [orb]. rewrite IH.
      destruct (cutByte c s) as [[??]|]; [done|]. split; by intros [? [=]].
Qed.

Lemma Contains_byte_false c s :
  strings.Contains s (String c "") = false ↔ cutByte c s = None.
Proof.
  by rewrite <- not_true_iff_false, Contains_byte, eq_None_not_Some.
Qed.

Lemma cutByte_app c before after :
  cutByte c before = None →
  cutByte c (before +:+ String c after) = Some (before, after).
Proof.
  induction before as [|a s IH]; simpl.
  - intros _. by rewrite decide_True.
  - destruct (decide (a = c)); [done|].
    destruct (cutByte c s) as [[??]|]; [done|]. intros _. by rewrite IH.
Qed.

(** C4, as the program has it: the line is split at every colon and kept
    only when that gives exactly two parts, that is when exactly one colon
    occurs in it; such a line whose trimmed key is not denied yields the
    entry of the normalised key and the trimmed text after the colon, and a
    line whose value holds a further colon (a timestamp) is discarded.  So
    the loop body is [oneColonLine], the parser folds it over the lines, and
    a line [key:rest] with no colon in [key] adds its entry exactly when
    [rest] has no colon. *)
Theorem ParseExiftoolOutput_keeps_one_colon_lines CamelCase :
  (∀ datas line,
     exiftoolLine CamelCase datas line =
     Returns (oneColonLine CamelCase datas line))
  ∧ (∀ exifout,
       ParseExiftoolOutput CamelCase exifout None =
       if utils.SliceContainsString "File not found"
            (strings.Split exifout strings.LF)
       then Returns None
       else Returns (Some (foldl (oneColonLine CamelCase) ∅
                             (strings.Split exifout strings.LF))))
  ∧ (∀ datas key rest,
       strings.Contains key ":" = false →
       exiftoolLine CamelCase datas (key +:+ ":" +:+ rest) =
       Returns (if strings.Contains rest ":" then datas
                else entry CamelCase datas key rest)).
Proof.
  split_and!.
  - apply exiftoolLine_oneColon.
  - apply ParseExiftoolOutput_oneColon.
  - intros datas key rest Hkey%Contains_byte_false.
    rewrite exiftoolLine_oneColon. unfold oneColonLine.
    change (":" +:+ rest) with (String ":" rest).
    rewrite cutByte_app by done.
    destruct (strings.Contains rest ":") eqn:Hrest.
    + apply Contains_byte in Hrest as [? ->]. done.
    + apply Contains_byte_false in Hrest as ->. done.
Qed.

Lemma ParseExiftoolOutput_keeps_one_colon_lines_sample :
  strings.Contains "File Size " ":" = false
  ∧ exiftoolLine utils.CamelCase ∅ "File Size : 40 kB"
    = Returns {["FileSize" := "40 kB"]}
  ∧ exiftoolLine utils.CamelCase ∅ "Time Stamp : 2004:08:04 06:01:37+00:00"
    = Returns ∅.
Proof.
  destruct (ParseExiftoolOutput_keeps_one_colon_lines utils.CamelCase)
    as (_ & _ & H).
  split_and!.
  - reflexivity.
  - apply (H ∅ "File Size " " 40 kB"). reflexivity.
  - apply (H ∅ "Time Stamp " " 2004:08:04 06:01:37+00:00"). reflexivity.
Defined.

(** C4, as it is worded, fails: cut at its first colon the line
    [Create Date : 2017:01:01 10:00:00] would give the entry of key
    [CreateDate] and value [2017:01:01 10:00:00]; the parser returns the
    empty mapping for it. *)
Lemma timestamp_line_is_discarded :
  firstColonLine utils.CamelCase ∅ timestamp_line
  = {["CreateDate" := "2017:01:01 10:00:00"]}
  ∧ ParseExiftoolOutput utils.CamelCase timestamp_line None
    = Returns (Some ∅).
Proof. split; reflexivity. Qed.

(** C8: a line whose trimmed original key is [Directory], [File Name],
    [File Permissions] or [File Modification Date/Time] leaves the mapping as
    it was; every entry of the result comes from a line of the output that
    split into a key and a value, the key not one of those four once trimmed;
    and the output [File Name: foo.exe] gives the empty mapping. *)
Theorem ParseExiftoolOutput_drops_denied_keys CamelCase :
  (∀ datas line key value,
     strings.Split line ":" = [key; value] →
     strings.TrimSpace key ∈ ignoreTags →
     exiftoolLine CamelCase datas line = Returns datas)
  ∧ (∀ exifout datas key value,
       ParseExiftoolOutput CamelCase exifout None = Returns (Some datas) →
       datas !! key = Some value →
       ∃ line k v,
         line ∈ strings.Split exifout strings.LF ∧
         strings.Split line ":" = [k; v] ∧
         (strings.TrimSpace k ∉ ignoreTags) ∧
         key = strings.TrimSpace (CamelCase k) ∧
         value = strings.TrimSpace v)
  ∧ ParseExiftoolOutput CamelCase "File Name: foo.exe" None
    = Returns (Some ∅).
Proof.
  split_and!.
  - intros datas line key value Hsplit Hdenied%StringInSlice_elem_of.
    unfold exiftoolLine. rewrite Hsplit.
    rewrite decide_False by (simpl; lia).
    change (index [key; value] 0) with (Returns key).
    unfold mbind, outcome_bind. by rewrite Hdenied.
  - intros exifout datas key value Hparse Hentry.
    rewrite ParseExiftoolOutput_oneColon in Hparse. cbv zeta in Hparse.
    destruct (utils.SliceContainsString _ _); [done|].
    injection Hparse as <-.
    apply oneColonLine_foldl_lookup in Hentry as [Hempty|Hline]; [|done].
    by rewrite lookup_empty in Hempty.
  - reflexivity.
Qed.

Lemma ParseExiftoolOutput_drops_denied_keys_sample :
  ParseExiftoolOutput utils.CamelCase exiftool_sample None
  = Returns (Some {[ "ExifToolVersionNumber" := "10.65";
                     "FileSize" := "40 kB"; "FileType" := "Win32 EXE" ]})
  ∧ exiftoolLine utils.CamelCase {["FileSize" := "40 kB"]}
      "File Name                       : sample.exe"
    = Returns {["FileSize" := "40 kB"]}
  ∧ ∃ line k v,
      line ∈ strings.Split exiftool_sample strings.LF ∧
      strings.Split line ":" = [k; v] ∧
      (strings.TrimSpace k ∉ ignoreTags) ∧
      "FileType" = strings.TrimSpace (utils.CamelCase k) ∧
      "Win32 EXE" = strings.TrimSpace v.
Proof.
  destruct (ParseExiftoolOutput_drops_denied_keys utils.CamelCase)
    as (Hline & Hentry & _).
  assert (ParseExiftoolOutput utils.CamelCase exiftool_sample None
          = Returns (Some {[ "ExifToolVersionNumber" := "10.65";
                             "FileSize" := "40 kB";
                             "FileType" := "Win32 EXE" ]})) as Hparse
    by reflexivity.
  split_and!.
  - exact Hparse.
  - apply (Hline _ _ "File Name                       " " sample.exe").
    + reflexivity.
    + apply elem_of_cons; right. apply elem_of_cons; by left.
  - apply (Hentry _ _ "FileType" "Win32 EXE" Hparse). reflexivity.
Defined.

(** ** The probe *)

Section probe_facts.
Import probe probe_inv.
Variables (which : detection) (path : string) (m0 : FileMagic).

Ltac probe_cases :=
  simpl in *; unfold goroutine_ok, caller_ok, weight in *; simpl in *;
  repeat match goal with
         | x : caller |- _ => destruct x
         | x : goroutine |- _ => destruct x
         end;
  simpl in *; try lia; naive_solver.

Lemma invariant_start d : invariant which path m0 (start m0 d).
Proof. by repeat split. Qed.

Lemma invariant_step s s' :
  invariant which path m0 s → step which path s s' →
  invariant which path m0 s'.
Proof.
  intros Hinv Hstep. destruct Hstep as [r s' Hthread|pc g ch cs m].
  - destruct Hthread; probe_cases.
  - probe_cases.
Qed.

Lemma invariant_reachable d s :
  rtc (step which path) (start m0 d) s → invariant which path m0 s.
Proof.
  revert s. apply (rtc_ind_r (R := step which path)).
  - apply invariant_start.
  - intros s1 s2 _ Hstep Hinv. by eapply invariant_step.
Qed.

(** A thread that moves has one step fewer before it. *)
Lemma thread_step_weight r r' :
  thread_step which path r (Running r') → weight r' < weight r.
Proof. inversion 1; subst; probe_cases. Qed.

(** A state in which no thread can move is one where both have ended. *)
Lemma stuck_finished r :
  invariant which path m0 (Running r) →
  (∀ s', ¬ thread_step which path r s') →
  returned (pc r) = true ∧ go r = GDone.
Proof.
  intros [Hg Hc] Hstuck. destruct r as [pc g ch d cs m].
  unfold goroutine_ok, caller_ok in *; simpl in *.
  destruct g as [| |p| |].
  - exfalso. eapply Hstuck. apply go_open.
  - exfalso. eapply Hstuck. apply (go_typeByFile _ _ _ _ _ _ _ ("", None)).
  - exfalso. destruct Hg as (_ & -> & _). eapply Hstuck. apply go_send.
  - exfalso. eapply Hstuck. apply go_close.
  - split; [|done]. destruct Hg as [_ Hch].
    destruct pc; [| |done..]; exfalso.
    + destruct ch as [p|]; [|naive_solver].
      eapply Hstuck. apply select_recv.
    + destruct ch as [p|]; [|naive_solver].
      eapply Hstuck. apply wait_recv.
Qed.

Lemma cancelled_run_reachable :
  rtc (step which path) (start m0 false)
    (Running (cancelled_state which path m0)).
Proof.
  eapply rtc_l; [apply thread, go_open|].
  eapply rtc_l; [apply deadline|].
  eapply rtc_l; [apply thread, select_done|].
  eapply rtc_l; [apply thread, (go_typeByFile _ _ _ _ _ _ _ ("", None))|].
  eapply rtc_l; [apply thread, go_send|].
  eapply rtc_l; [apply thread, wait_recv|].
  apply rtc_refl.
Qed.

End probe_facts.

(** C2, as the program has it: in every state a probe reaches (either of
    [GetFileMimeType] and [GetFileDescription], whenever the deadline
    passes): the library has been closed no more often than opened, and
    opened at most once; once the goroutine has ended, it has been opened
    once and closed once; a caller that has returned on the branch of
    [ctx.Done()] returns [ctx.Err()], the error of the passed deadline, and
    has done so only after the detection ended and its result was sent and
    received, the goroutine having nothing left to do but the deferred
    close; that close is then the one step that can follow, and it balances
    the calls; a state in which no thread can move has the caller returned,
    the goroutine ended and the calls balanced; and every step of a thread
    brings the end nearer, so no run goes on for ever. *)
Theorem probe_waits_and_releases which path m0 d0 (r : probe.running) :
  rtc (probe.step which path) (probe.start m0 d0) (probe.Running r) →
  (probe.closes (probe.calls r) ≤ probe.opens (probe.calls r) ≤ 1)
  ∧ (probe.go r = probe.GDone →
       probe.opens (probe.calls r) = 1 ∧ probe.closes (probe.calls r) = 1)
  ∧ (∀ err, probe.pc r = probe.CReturnedCancelled err →
       probe.done r = true ∧ err = ctxErr (probe.done r)
       ∧ err = Some DeadlineExceeded
       ∧ probe.TypeByFile path ∈ probe.calls r
       ∧ probe.c r = None
       ∧ (probe.go r = probe.GClose ∨ probe.go r = probe.GDone))
  ∧ (probe.returned (probe.pc r) = true → probe.go r = probe.GClose →
       ∃ r', probe.thread_step which path r (probe.Running r')
         ∧ (∀ s, probe.thread_step which path r s → s = probe.Running r')
         ∧ probe.go r' = probe.GDone
         ∧ probe.opens (probe.calls r') = probe.closes (probe.calls r'))
  ∧ ((∀ s, ¬ probe.thread_step which path r s) →
       probe.returned (probe.pc r) = true ∧ probe.go r = probe.GDone
       ∧ probe.opens (probe.calls r) = probe.closes (probe.calls r))
  ∧ (∀ r', probe.thread_step which path r (probe.Running r') →
       probe_inv.weight r' < probe_inv.weight r).
Proof.
  intros Hinv%invariant_reachable.
  assert (Hcalls : ∃ k, probe.calls r =
            take k [probe.Open (probe.flags which); probe.TypeByFile path;
                    probe.Close]
            ∧ (probe.go r = probe.GDone → k = 3)
            ∧ (probe.go r = probe.GClose → k = 2)).
  { destruct Hinv as [Hg _]. unfold probe_inv.goroutine_ok in Hg.
    destruct (probe.go r).
    - exists 0. naive_solver.
    - exists 1. naive_solver.
    - exists 2. naive_solver.
    - exists 2. naive_solver.
    - exists 3. naive_solver. }
  destruct Hcalls as (k & Hcalls & Hdone & Hclose).
  split_and!.
  - rewrite Hcalls. by destruct k as [|[|[|k]]]; cbn; rewrite ?take_nil; cbn; lia.
  - rewrite Hcalls. by destruct k as [|[|[|k]]]; cbn; rewrite ?take_nil; cbn; lia.
  - intros ->%Hdone. by rewrite Hcalls.
  - intros err Hpc. destruct Hinv as [Hg Hc].
    unfold probe_inv.goroutine_ok, probe_inv.caller_ok in *.
    rewrite Hpc in *. destruct Hc as (Hd & -> & _). rewrite Hd.
    destruct (probe.go r); simpl in *; destruct Hg as [Hcs Hg];
      try naive_solver.
    + split_and!; try done; [rewrite Hcs; set_solver|naive_solver|by left].
    + split_and!; try done; [rewrite Hcs; set_solver|naive_solver|by right].
  - intros Hret Hgo. destruct r as [pc g ch d cs m]. simpl in *. subst g.
    eexists. split_and!.
    + apply probe.go_close.
    + intros s Hs. inversion Hs; subst; simpl in *; done.
    + done.
    + simpl. specialize (Hclose eq_refl) as ->. by rewrite Hcalls.
  - intros Hstuck.
    destruct (stuck_finished which path m0 r Hinv Hstuck) as [Hret Hgo].
    split_and!; [done..|]. rewrite Hcalls, (Hdone Hgo). done.
  - apply thread_step_weight.
Qed.

Lemma probe_waits_and_releases_sample :
  probe.TypeByFile "/malware/sample.apk" ∈ probe.calls sample_cancelled
  ∧ probe.c sample_cancelled = None
  ∧ ∃ r', probe.thread_step MimeType "/malware/sample.apk" sample_cancelled
            (probe.Running r')
      ∧ probe.go r' = probe.GDone
      ∧ probe.opens (probe.calls r') = probe.closes (probe.calls r').
Proof.
  destruct (probe_waits_and_releases MimeType "/malware/sample.apk"
              {| Mime := ""; Description := "" |} false sample_cancelled
              (cancelled_run_reachable _ _ _))
    as (_ & _ & Hcancel & Hclose & _).
  destruct (Hcancel _ eq_refl) as (_ & _ & _ & Hcall & Hc & _).
  destruct (Hclose eq_refl eq_refl) as (r' & Hstep & _ & Hgo & Hbal).
  split_and!; [exact Hcall|exact Hc|].
  exists r'. done.
Defined.

(** C2, as it is worded, fails: the deferred close runs after the send, so
    the caller that waited for the result can return on the branch of
    [ctx.Done()] while the goroutine has not ended and the library, opened
    once, has not been closed. *)
Lemma caller_returns_before_the_close :
  rtc (probe.step MimeType "/malware/sample.apk")
    (probe.start {| Mime := ""; Description := "" |} false)
    (probe.Running sample_cancelled)
  ∧ probe.pc sample_cancelled
    = probe.CReturnedCancelled (Some DeadlineExceeded)
  ∧ probe.go sample_cancelled = probe.GClose
  ∧ probe.opens (probe.calls sample_cancelled) = 1
  ∧ probe.closes (probe.calls sample_cancelled) = 0.
Proof. split_and!; [apply cancelled_run_reachable|done..]. Qed.

(** ** The scan paths *)

#[local] Arguments ParseSsdeepOutput : simpl never.
#[local] Arguments ParseTRiDOutput : simpl never.
#[local] Arguments ParseExiftoolOutput : simpl never.

(** Run a scan path on a world: unfold the steps, then follow every answer
    of the environment. *)
Ltac run_prog :=
  cbv beta iota zeta delta
    [webAvScan appAction GetFileMimeType GetFileDescription probeCall
     RunCommand record get setDone setMagic setResponse WriteHeader HeaderSet
     Write Println WithTimeout ctx_Err Fatal lift deref fatalIf FormFile
     mbind prog_bind mret prog_ret malware content Filename];
  unfold probes, attempts in *.

Ltac follow :=
  repeat (first [ progress rewrite ?List.filter_app, ?length_app
                | match goal with
                  | H : detect _ _ _ = _ |- _ => rewrite H
                  end
                | case_match ];
          simplify_eq/=).

(** The handler returns only after it has written the report, whose magic
    field is the holder as the probes left it; a probe that the deadline
    beat leaves its field as it was before the request. *)
Lemma webAvScan_report E CamelCase r σ σ' :
  webAvScan E CamelCase r σ = (Returns (), σ') →
  ∃ fileInfo,
    body (w σ') = body (w σ) ++ [Json fileInfo]
    ∧ Magic fileInfo = Magic (fi σ')
    ∧ (detect E (probes σ) MimeType = Expires →
         Mime (Magic fileInfo) = Mime (Magic (fi σ)))
    ∧ (detect E (probes σ + 1) FileDescription = Expires →
         Description (Magic fileInfo) = Description (Magic (fi σ))).
Proof.
  destruct r as [[u|]]; run_prog; follow; try done;
    intros [= <-]; simpl; eexists; (split; [done|]);
    (split; [done|]); split; intros; simplify_eq/=; done.
Qed.

(** The same for the action of the command line. *)
Lemma appAction_report E CamelCase args σ σ' fileInfo :
  appAction E CamelCase false args σ = (Returns (Some fileInfo), σ') →
  Magic fileInfo = Magic (fi σ')
  ∧ (detect E (probes σ) MimeType = Expires →
       Mime (Magic fileInfo) = Mime (Magic (fi σ))).
Proof.
  destruct args as [|path args]; run_prog; follow; try done;
    intros [= <- <-]; simpl; split; intros; simplify_eq/=; done.
Qed.

(** The handler probes each kind once at most. *)
Lemma webAvScan_attempts E CamelCase r σ which :
  attempts which (webAvScan E CamelCase r σ).2 ≤ attempts which σ + 1.
Proof.
  destruct which, r as [[u|]]; run_prog; follow; simpl; lia.
Qed.

(** The action of the command line probes the mime type a second time when
    the first probe failed and the deadline has not passed. *)
Lemma appAction_retries E CamelCase path args σ p :
  stat E path = true →
  detect E (probes σ) MimeType = Delivers p false →
  is_Some p.2 →
  attempts MimeType (appAction E CamelCase false (path :: args) σ).2
  = attempts MimeType σ + 2.
Proof.
  intros Hstat Hev [e He]. destruct p as [text err]. simpl in He. subst err.
  run_prog. rewrite Hstat. follow; lia.
Qed.

Lemma probeCall_Expires E which path σ :
  detect E (probes σ) which = Expires →
  ∃ σ', probeCall E which path σ = (Returns (Some DeadlineExceeded), σ')
    ∧ fi σ' = fi σ.
Proof. intros Hev. run_prog. follow. by eexists. Qed.

Lemma probeCall_Delivers E which path σ p late :
  detect E (probes σ) which = Delivers p late →
  ∃ σ', probeCall E which path σ = (Returns p.2, σ')
    ∧ Magic (fi σ') = assign which (probe.recorded p) (Magic (fi σ)).
Proof. intros Hev. run_prog. follow. by eexists. Qed.

Lemma probe_caller_ok which path m0 d0 r :
  rtc (probe.step which path) (probe.start m0 d0) (probe.Running r) →
  probe_inv.caller_ok which m0 r.
Proof. by intros [_ Hc]%invariant_reachable. Qed.

(** What a probe of the scan paths does on an event is what the two threads
    can have done when the caller has returned. *)
Lemma probeCall_refines_probe which path m0 d0 r :
  rtc (probe.step which path) (probe.start m0 d0) (probe.Running r) →
  probe.returned (probe.pc r) = true →
  ∃ ev, ∀ E σ,
    detect E (probes σ) which = ev → Magic (fi σ) = m0 →
    ∃ σ', probeCall E which path σ = (Returns (probe.result (probe.pc r)), σ')
      ∧ Magic (fi σ') = probe.magic r.
Proof.
  intros Hc%probe_caller_ok Hret. unfold probe_inv.caller_ok in Hc.
  destruct (probe.pc r) as [| |err|err]; [done..| |]; simpl.
  - destruct Hc as (_ & -> & ->). exists Expires. intros E σ Hev <-.
    destruct (probeCall_Expires E which path σ Hev) as (σ' & ? & Hfi).
    exists σ'. by rewrite Hfi.
  - destruct Hc as (p & -> & ->). exists (Delivers p false).
    intros E σ Hev <-.
    destruct (probeCall_Delivers E which path σ p false Hev) as (σ' & ? & ?).
    by exists σ'.
Qed.

(** Conversely the two threads can meet each event. *)
Lemma probe_meets_event which path m0 ev :
  match ev with
  | Expires =>
      ∃ r, rtc (probe.step which path) (probe.start m0 false)
             (probe.Running r)
        ∧ probe.pc r = probe.CReturnedCancelled (Some DeadlineExceeded)
        ∧ probe.magic r = m0
  | Delivers p late =>
      ∃ r, rtc (probe.step which path) (probe.start m0 false)
             (probe.Running r)
        ∧ probe.pc r = probe.CReturned p.2
        ∧ probe.magic r = assign which (probe.recorded p) m0
        ∧ probe.done r = late
  | OpenFails =>
      rtc (probe.step which path) (probe.start m0 false) (probe.Exited 1)
  end.
Proof.
  destruct ev as [p late| |].
  - exists (probe.Build (probe.CReturned p.2) probe.GClose None late
              [probe.Open (probe.flags which); probe.TypeByFile path]
              (assign which (probe.recorded p) m0)).
    split; [|done].
    eapply rtc_l; [apply probe.thread, probe.go_open|].
    eapply rtc_l;
      [apply probe.thread, (probe.go_typeByFile _ _ _ _ _ _ _ p)|].
    eapply rtc_l; [apply probe.thread, probe.go_send|].
    eapply rtc_l; [apply probe.thread, probe.select_recv|].
    destruct late; [|apply rtc_refl].
    eapply rtc_l; [apply probe.deadline|]. apply rtc_refl.
  - eexists. split; [apply cancelled_run_reachable|done].
  - eapply rtc_l; [apply probe.thread, probe.go_open_fails|]. apply rtc_refl.
Qed.

(** ** The claims on the scan paths *)

(** C9: for a request without the field [malware] the handler writes the
    client-error status and the line of text and goes on past the branch: it
    ends in the fault of a nil dereference, at the first use of the nil file
    handle (the deferred [file.Close]), and not by a return; nothing else of
    the world has changed then. *)
Theorem webAvScan_goes_on_past_the_error_branch E CamelCase σ :
  webAvScan E CamelCase {| malware := None |} σ
  = (Panics NilDereference, rejected σ)
  ∧ w (rejected fresh)
    = {| status := Some StatusBadRequest; header := [];
         body := [Text "Please supply a valid file to scan."] |}.
Proof.
  split; [|done]. run_prog. unfold rejected.
  destruct (status (w σ)) eqn:Hst; simpl; by rewrite ?Hst.
Qed.

(** C3: the handler never probes a second time: whatever the environment
    answers, it makes one attempt at most for each kind; when the first
    probe of the mime type fails with an error of the library and the
    deadline has not passed, the handler makes that one attempt and reports
    the error's text, where the action of the command line makes two and
    reports the detected type. *)
Theorem webAvScan_does_not_retry :
  (∀ E CamelCase r σ which,
     attempts which (webAvScan E CamelCase r σ).2 ≤ attempts which σ + 1)
  ∧ attempts MimeType
      (webAvScan (sample_env transient) utils.CamelCase sample_request
         fresh).2 = 1
  ∧ Mime (Magic (fi (webAvScan (sample_env transient) utils.CamelCase
                       sample_request fresh).2))
    = "magic: could not read the file"
  ∧ attempts MimeType
      (appAction (sample_env transient) utils.CamelCase false
         ["/malware/sample.apk"] fresh).2 = 2
  ∧ Mime (Magic (fi (appAction (sample_env transient) utils.CamelCase false
                       ["/malware/sample.apk"] fresh).2))
    = "application/zip".
Proof.
  split_and!; [apply webAvScan_attempts|vm_compute; reflexivity..].
Qed.

(** C10: when the deadline has passed and no result is on the channel, the
    one step open to the caller is the branch of [ctx.Done()]; a caller that
    returns on that branch returns the error of the passed deadline and has
    assigned nothing to [fi.Magic]; so
    [GetFileMimeType] and [GetFileDescription], met by the deadline, return
    that error and leave [fi] as it was, and the report the handler or the
    action of the command line assembles afterwards carries in that field
    what the holder held before the scan. *)
Theorem expired_probe_leaves_its_field :
  (∀ which path g cs m r',
     probe.thread_step which path (probe.Build probe.CSelect g None true cs m)
       (probe.Running r') →
     probe.pc r' = probe.CSelect ∨ probe.pc r' = probe.CWait)
  ∧ (∀ which path m0 d0 r err,
     rtc (probe.step which path) (probe.start m0 d0) (probe.Running r) →
     probe.pc r = probe.CReturnedCancelled err →
     err = Some DeadlineExceeded ∧ probe.magic r = m0)
  ∧ (∀ E path σ,
       detect E (probes σ) MimeType = Expires →
       ∃ σ', GetFileMimeType E path σ = (Returns (Some DeadlineExceeded), σ')
         ∧ fi σ' = fi σ)
  ∧ (∀ E path σ,
       detect E (probes σ) FileDescription = Expires →
       ∃ σ', GetFileDescription E path σ
             = (Returns (Some DeadlineExceeded), σ')
         ∧ fi σ' = fi σ)
  ∧ (∀ E CamelCase r σ σ',
       webAvScan E CamelCase r σ = (Returns (), σ') →
       ∃ fileInfo,
         body (w σ') = body (w σ) ++ [Json fileInfo]
         ∧ (detect E (probes σ) MimeType = Expires →
              Mime (Magic fileInfo) = Mime (Magic (fi σ)))
         ∧ (detect E (probes σ + 1) FileDescription = Expires →
              Description (Magic fileInfo) = Description (Magic (fi σ))))
  ∧ (∀ E CamelCase args σ σ' fileInfo,
       appAction E CamelCase false args σ = (Returns (Some fileInfo), σ') →
       detect E (probes σ) MimeType = Expires →
       Mime (Magic fileInfo) = Mime (Magic (fi σ))).
Proof.
  split_and!.
  - intros which path g cs m r' Hstep. inversion Hstep; subst; simpl; auto.
  - intros which path m0 d0 r err Hc%probe_caller_ok Hpc.
    unfold probe_inv.caller_ok in Hc. rewrite Hpc in Hc. naive_solver.
  - intros E path σ. apply probeCall_Expires.
  - intros E path σ. apply probeCall_Expires.
  - intros E CamelCase r σ σ' Hrun.
    destruct (webAvScan_report _ _ _ _ _ Hrun) as (fileInfo & ? & _ & ? & ?).
    by exists fileInfo.
  - intros E CamelCase args σ σ' fileInfo Hrun.
    by destruct (appAction_report _ _ _ _ _ _ Hrun).
Qed.

Lemma expired_probe_leaves_its_field_sample :
  Magic (fi after_first_scan)
  = {| Mime := "application/zip";
       Description := "Zip archive data, at least v2.0 to extract" |}
  ∧ (∃ σ', GetFileMimeType (sample_env expiring) "/malware/web_081" fresh
           = (Returns (Some DeadlineExceeded), σ')
       ∧ fi σ' = fi fresh)
  ∧ (∃ fileInfo,
       body (w second_scan) = body (w after_first_scan) ++ [Json fileInfo]
       ∧ Mime (Magic fileInfo) = Mime (Magic (fi after_first_scan))
       ∧ Description (Magic fileInfo)
         = Description (Magic (fi after_first_scan)))
  ∧ probe.result (probe.pc sample_cancelled) = Some DeadlineExceeded
  ∧ probe.magic sample_cancelled = {| Mime := ""; Description := "" |}.
Proof.
  destruct expired_probe_leaves_its_field
    as (_ & Hprobe & Hmime & _ & Hweb & _).
  split_and!.
  - vm_compute. reflexivity.
  - apply (Hmime (sample_env expiring) "/malware/web_081" fresh).
    reflexivity.
  - destruct (Hweb (sample_env expiring) utils.CamelCase sample_request
                after_first_scan second_scan)
      as (fileInfo & Hbody & Hm & Hd); [vm_compute; reflexivity|].
    exists fileInfo. split; [exact Hbody|].
    split; [apply Hm|apply Hd]; reflexivity.
  - apply (Hprobe MimeType "/malware/sample.apk"
             {| Mime := ""; Description := "" |} false sample_cancelled
             (probe.result (probe.pc sample_cancelled))).
    + apply cancelled_run_reachable.
    + reflexivity.
  - apply (Hprobe MimeType "/malware/sample.apk"
             {| Mime := ""; Description := "" |} false sample_cancelled
             (Some DeadlineExceeded)).
    + apply cancelled_run_reachable.
    + reflexivity.
Defined.

(** C5, as the program has it: the probe hands its caller only an error
    and records what it detected, or the error's text, in its field of the
    holder [fi.Magic] of the process: so does the caller that took the
    result from the channel, so do [GetFileMimeType] and
    [GetFileDescription] on a delivered result, and the report of the
    handler and of the action of the command line takes its magic field from
    the holder as it is when the report is assembled. *)
Theorem probe_records_in_the_holder :
  (∀ which path m0 d0 r err,
     rtc (probe.step which path) (probe.start m0 d0) (probe.Running r) →
     probe.pc r = probe.CReturned err →
     ∃ p, err = p.2
       ∧ probe.magic r = assign which (probe.recorded p) m0)
  ∧ (∀ E path σ p late,
       detect E (probes σ) MimeType = Delivers p late →
       ∃ σ', GetFileMimeType E path σ = (Returns p.2, σ')
         ∧ Magic (fi σ')
           = {| Mime := probe.recorded p;
                Description := Description (Magic (fi σ)) |})
  ∧ (∀ E path σ p late,
       detect E (probes σ) FileDescription = Delivers p late →
       ∃ σ', GetFileDescription E path σ = (Returns p.2, σ')
         ∧ Magic (fi σ')
           = {| Mime := Mime (Magic (fi σ));
                Description := probe.recorded p |})
  ∧ (∀ E CamelCase r σ σ',
       webAvScan E CamelCase r σ = (Returns (), σ') →
       ∃ fileInfo,
         body (w σ') = body (w σ) ++ [Json fileInfo]
         ∧ Magic fileInfo = Magic (fi σ'))
  ∧ (∀ E CamelCase args σ σ' fileInfo,
       appAction E CamelCase false args σ = (Returns (Some fileInfo), σ') →
       Magic fileInfo = Magic (fi σ')).
Proof.
  split_and!.
  - intros which path m0 d0 r err Hc%probe_caller_ok Hpc.
    unfold probe_inv.caller_ok in Hc. by rewrite Hpc in Hc.
  - intros E path σ p late. apply probeCall_Delivers.
  - intros E path σ p late. apply probeCall_Delivers.
  - intros E CamelCase r σ σ' Hrun.
    destruct (webAvScan_report _ _ _ _ _ Hrun) as (fileInfo & ? & ? & _).
    by exists fileInfo.
  - intros E CamelCase args σ σ' fileInfo Hrun.
    by destruct (appAction_report _ _ _ _ _ _ Hrun).
Qed.

Lemma probe_records_in_the_holder_sample :
  (∃ σ', GetFileMimeType (sample_env detecting) "/malware/web_081" fresh
         = (Returns (detected MimeType).2, σ')
     ∧ Magic (fi σ')
       = {| Mime := probe.recorded (detected MimeType);
            Description := Description (Magic (fi fresh)) |})
  ∧ (∃ fileInfo,
       body (w first_scan) = body (w fresh) ++ [Json fileInfo]
       ∧ Magic fileInfo = Magic (fi first_scan)).
Proof.
  destruct probe_records_in_the_holder as (_ & Hmime & _ & Hweb & _).
  split.
  - apply (Hmime (sample_env detecting) "/malware/web_081" fresh
             (detected MimeType) false).
    reflexivity.
  - apply (Hweb (sample_env detecting) utils.CamelCase sample_request fresh
             first_scan).
    vm_compute. reflexivity.
Defined.

(** C5, as it is worded, fails: [GetFileMimeType] changes the holder [fi]
    of the process, and what the first request recorded there is what the
    next request of the process finds in it. *)
Lemma holder_is_shared_across_scans :
  fi (GetFileMimeType (sample_env detecting) "/malware/web_081" fresh).2
  ≠ fi fresh
  ∧ Magic (fi fresh) = {| Mime := ""; Description := "" |}
  ∧ Magic (fi after_first_scan)
    = {| Mime := "application/zip";
         Description := "Zip archive data, at least v2.0 to extract" |}.
Proof.
  split_and!.
  - intros Heq. apply (f_equal (λ x, Mime (Magic x))) in Heq.
    vm_compute in Heq. discriminate Heq.
  - reflexivity.
  - vm_compute. reflexivity.
Qed.

(** * Further properties of the parsers *)

Lemma prefix_empty s : String.prefix "" s = true.
Proof. by destruct s. Qed.

(** A prefix without line feed is seen in the first line. *)
Lemma HasPrefix_upTo d s :
  cutByte "010" d = None →
  strings.HasPrefix s d = strings.HasPrefix (upTo "010" s) d.
Proof.
  unfold strings.HasPrefix, upTo. revert s.
  induction d as [|x d IH]; intros s Hd; simpl in *.
  { by rewrite !prefix_empty. }
  destruct (decide (x = "010"%char)) as [->|Hx]; [done|].
  destruct (cutByte "010" d) as [[??]|] eqn:Hd'; [done|].
  destruct s as [|a s]; simpl; [done|].
  destruct (decide (a = "010"%char)) as [->|Ha].
  - simpl. by destruct (ascii_dec x "010").
  - specialize (IH s eq_refl).
    destruct (cutByte "010" s) as [[b af]|]; simpl in *;
      destruct (ascii_dec x a); done.
Qed.

(** A text without line feed occurs in some line exactly when it occurs in
    the output. *)
Lemma SliceContainsString_Split d s :
  cutByte "010" d = None →
  utils.SliceContainsString d (strings.Split s strings.LF)
  = strings.Contains s d.
Proof.
  intros Hd. unfold strings.LF.
  induction s as [|a s IH]; [by destruct d|].
  rewrite Split_cutByte. rewrite Split_cutByte in IH.
  cbn [cutByte strings.Contains].
  rewrite (HasPrefix_upTo d (String a s)) by done. unfold upTo.
  cbn [cutByte].
  destruct (decide (a = "010"%char)) as [->|Ha].
  - cbn [utils.SliceContainsString strings.Contains]. rewrite <- IH.
    rewrite <- Split_cutByte.
    destruct (strings.HasPrefix "" d); simpl; [done|].
    by destruct (utils.SliceContainsString d _).
  - destruct (cutByte "010" s) as [[b af]|];
      cbn [utils.SliceContainsString strings.Contains] in *.
    + rewrite <- IH. destruct (strings.HasPrefix (String a b) d); simpl; [done|].
      by destruct (strings.Contains b d).
    + rewrite <- IH. destruct (strings.HasPrefix (String a s) d); simpl; [done|].
      by destruct (strings.Contains s d).
Qed.

(** The fuzzy-hash parser on the output of a successful invocation. *)
Lemma ParseSsdeepOutput_eq ssdout :
  ParseSsdeepOutput ssdout None =
  if strings.Contains ssdout "No such file or directory" then Returns ""
  else match cutByte "010" ssdout with
       | None => Panics (IndexOutOfRange 1 1)
       | Some (_, rest) =>
           Returns (strings.TrimSpace (upTo "," (upTo "010" rest)))
       end.
Proof.
  unfold ParseSsdeepOutput. rewrite SliceContainsString_Split by done.
  destruct (strings.Contains ssdout _); [done|].
  unfold strings.LF, upTo. rewrite Split_cutByte.
  destruct (cutByte "010" ssdout) as [[header rest]|]; [|done].
  rewrite (Split_cutByte "010" rest).
  destruct (cutByte "010" rest) as [[line tail]|]; simpl.
  - rewrite (Split_cutByte "," line).
    by destruct (cutByte "," line) as [[??]|].
  - rewrite (Split_cutByte "," rest).
    by destruct (cutByte "," rest) as [[??]|].
Qed.

(** The identification parser on the output of a successful invocation. *)
Lemma ParseTRiDOutput_eq tridout :
  ParseTRiDOutput tridout None =
  if strings.Contains tridout "Error: found no file(s) to analyze!"
  then Returns None
  else if decide (length (strings.Split tridout strings.LF) < 6)
       then Panics (SliceBoundsOutOfRange 6
                      (length (strings.Split tridout strings.LF)))
       else Returns (Some (filter (λ l, l ≠ "")
                             (strings.TrimSpace <$>
                                drop 6 (strings.Split tridout strings.LF)))).
Proof.
  unfold ParseTRiDOutput. rewrite SliceContainsString_Split by done.
  destruct (strings.Contains tridout _); [done|].
  unfold slice_from. case_decide; case_decide; try lia; [|done].
  simpl. by rewrite tridLine_foldl.
Qed.

(** X1: an output of a successful [ssdeep] invocation that holds the text
    [No such file or directory] anywhere gives the empty digest, whatever
    its number of lines: the test comes before the second line is read. *)
Theorem ParseSsdeepOutput_missing_file ssdout :
  strings.Contains ssdout "No such file or directory" = true →
  ParseSsdeepOutput ssdout None = Returns "".
Proof. intros Hdiag. by rewrite ParseSsdeepOutput_eq, Hdiag. Qed.

Lemma ParseSsdeepOutput_missing_file_sample :
  strings.Contains ssdeep_missing "No such file or directory" = true
  ∧ strings.Contains ssdeep_missing strings.LF = false
  ∧ ParseSsdeepOutput ssdeep_missing None = Returns "".
Proof.
  split_and!; [reflexivity..|].
  apply ParseSsdeepOutput_missing_file. reflexivity.
Defined.

(** X2: the identification parser returns the nil sequence exactly when the
    output of the successful invocation holds the text
    [Error: found no file(s) to analyze!]; every other result of it is a
    sequence that is not nil, the empty one included. *)
Theorem ParseTRiDOutput_nil_iff tridout :
  ParseTRiDOutput tridout None = Returns None ↔
  strings.Contains tridout "Error: found no file(s) to analyze!" = true.
Proof.
  rewrite ParseTRiDOutput_eq.
  destruct (strings.Contains tridout _); [done|]. by case_decide.
Qed.

(** X3: the metadata parser returns the nil mapping exactly when the output
    of the successful invocation holds the text [File not found]; then no
    line of the output is read. *)
Theorem ParseExiftoolOutput_nil_iff CamelCase exifout :
  ParseExiftoolOutput CamelCase exifout None = Returns None ↔
  strings.Contains exifout "File not found" = true.
Proof.
  rewrite ParseExiftoolOutput_oneColon. cbv zeta.
  rewrite SliceContainsString_Split by done.
  by destruct (strings.Contains exifout _).
Qed.

(** X4: on an output of a successful invocation without the diagnostic the
    fuzzy-hash parser faults when the output has no line feed, and otherwise
    returns, trimmed, the text of the second line before its first comma
    (all of the second line when it has no comma); nothing after the second
    line is looked at. *)
Theorem ParseSsdeepOutput_second_line ssdout :
  strings.Contains ssdout "No such file or directory" = false →
  ParseSsdeepOutput ssdout None =
  match cutByte "010" ssdout with
  | None => Panics (IndexOutOfRange 1 1)
  | Some (_, rest) => Returns (strings.TrimSpace (upTo "," (upTo "010" rest)))
  end.
Proof. intros Hdiag. by rewrite ParseSsdeepOutput_eq, Hdiag. Qed.

Lemma ParseSsdeepOutput_second_line_sample :
  strings.Contains ssdeep_sample "No such file or directory" = false
  ∧ ParseSsdeepOutput ssdeep_sample None
    = Returns "768:15jQ4nVHQaeO379u4XckKVCsknBN9A4hUnDxDiNZ957ZpK0IUUiM95Zdz:15jQ4nVHQaeO9uwckKuBN9A4UnDxcbFi".
Proof.
  split; [reflexivity|].
  rewrite (ParseSsdeepOutput_second_line ssdeep_sample); reflexivity.
Defined.

(** X5: on an output of a successful invocation without the diagnostic the
    identification parser faults when the output has fewer than six lines,
    and from six lines on returns the trimmed lines after the sixth that are
    not blank: the empty sequence, not nil, when there is none. *)
Theorem ParseTRiDOutput_from_six_lines tridout :
  strings.Contains tridout "Error: found no file(s) to analyze!" = false →
  ParseTRiDOutput tridout None =
  if decide (length (strings.Split tridout strings.LF) < 6)
  then Panics (SliceBoundsOutOfRange 6
                 (length (strings.Split tridout strings.LF)))
  else Returns (Some (filter (λ l, l ≠ "")
                        (strings.TrimSpace <$>
                           drop 6 (strings.Split tridout strings.LF)))).
Proof. intros Hdiag. by rewrite ParseTRiDOutput_eq, Hdiag. Qed.

Lemma ParseTRiDOutput_from_six_lines_sample :
  strings.Contains banner_only "Error: found no file(s) to analyze!" = false
  ∧ length (strings.Split banner_only strings.LF) = 6
  ∧ ParseTRiDOutput banner_only None = Returns (Some []).
Proof.
  split_and!; [reflexivity..|].
  rewrite (ParseTRiDOutput_from_six_lines banner_only); reflexivity.
Defined.





(** * Further properties of the probe *)

(** X7: a probe never touches the field of [fi.Magic] that belongs to the
    other probe: in every state [GetFileMimeType] reaches the description is
    the one it started with, and in every state [GetFileDescription] reaches
    the mime type is. *)
Theorem probe_keeps_the_other_field which path m0 d0 (r : probe.running) :
  rtc (probe.step which path) (probe.start m0 d0) (probe.Running r) →
  match which with
  | MimeType => Description (probe.magic r) = Description m0
  | FileDescription => Mime (probe.magic r) = Mime m0
  end.
Proof.
  intros Hc%probe_caller_ok. unfold probe_inv.caller_ok in Hc.
  destruct (probe.pc r) as [| |err|err];
    [|destruct Hc as [_ Hc]|destruct Hc as (_ & _ & Hc)
     |destruct Hc as (p & _ & Hc)];
    rewrite Hc; by destruct which.
Qed.

Lemma probe_keeps_the_other_field_sample :
  Description (probe.magic sample_cancelled) = "".
Proof.
  apply (probe_keeps_the_other_field MimeType "/malware/sample.apk"
           {| Mime := ""; Description := "" |} false sample_cancelled).
  apply cancelled_run_reachable.
Defined.

(** X8: the calls a probe makes to the detection library are, in every
    state it reaches, a beginning of: open with the flags of the probe
    ([MAGIC_MIME_TYPE] only for the mime type), detect the file at [path],
    close. So the detection runs only on the opened library, once, and
    nothing follows the close. *)
Theorem probe_calls_in_order which path m0 d0 (r : probe.running) :
  rtc (probe.step which path) (probe.start m0 d0) (probe.Running r) →
  probe.calls r `prefix_of`
    [probe.Open (probe.flags which); probe.TypeByFile path; probe.Close]
  ∧ (probe.MAGIC_MIME_TYPE ∈ probe.flags which ↔ which = MimeType).
Proof.
  intros [Hg _]%invariant_reachable. split.
  - unfold probe_inv.goroutine_ok in Hg.
    destruct (probe.go r); destruct Hg as [-> _].
    + by eexists.
    + by exists [probe.TypeByFile path; probe.Close].
    + by exists [probe.Close].
    + by exists [probe.Close].
    + by exists [].
  - destruct which; simpl; [set_solver|].
    split; [|done]. intros Hin. repeat apply elem_of_cons in Hin as [?|Hin];
      try done. by apply elem_of_nil in Hin.
Qed.

Lemma probe_calls_in_order_sample :
  probe.calls sample_cancelled `prefix_of`
    [probe.Open (probe.flags MimeType);
     probe.TypeByFile "/malware/sample.apk"; probe.Close].
Proof.
  apply (probe_calls_in_order MimeType "/malware/sample.apk"
           {| Mime := ""; Description := "" |} false sample_cancelled).
  apply cancelled_run_reachable.
Defined.

(** X9: the goroutine of a probe never waits for the caller: in every state
    the probe reaches in which the goroutine has not ended, the goroutine
    has a step that leaves the caller where it is. The channel holds one
    result, so the send goes through whether or not anyone receives. *)
Theorem probe_goroutine_never_blocks which path m0 d0 (r : probe.running) :
  rtc (probe.step which path) (probe.start m0 d0) (probe.Running r) →
  probe.go r ≠ probe.GDone →
  ∃ r', probe.thread_step which path r (probe.Running r')
    ∧ probe.pc r' = probe.pc r
    ∧ probe_inv.weight r' < probe_inv.weight r.
Proof.
  intros [Hg _]%invariant_reachable Hgo.
  destruct r as [pc g ch d cs m]. unfold probe_inv.goroutine_ok in Hg.
  simpl in *. destruct g as [| |p| |]; [| | | |done].
  - eexists. split; [apply probe.go_open|]. unfold probe_inv.weight.
    simpl. split; [done|lia].
  - eexists. split; [apply (probe.go_typeByFile _ _ _ _ _ _ _ ("", None))|].
    unfold probe_inv.weight. simpl. split; [done|lia].
  - destruct Hg as (_ & -> & _).
    eexists. split; [apply probe.go_send|]. unfold probe_inv.weight.
    simpl. split; [done|lia].
  - eexists. split; [apply probe.go_close|]. unfold probe_inv.weight.
    simpl. split; [done|lia].
Qed.

Lemma probe_goroutine_never_blocks_sample :
  ∃ r', probe.thread_step MimeType "/malware/sample.apk" sample_cancelled
          (probe.Running r')
    ∧ probe.pc r' = probe.pc sample_cancelled
    ∧ probe_inv.weight r' < probe_inv.weight sample_cancelled.
Proof.
  apply (probe_goroutine_never_blocks MimeType "/malware/sample.apk"
           {| Mime := ""; Description := "" |} false sample_cancelled).
  - apply cancelled_run_reachable.
  - discriminate.
Defined.

(** * Further properties of the scan paths *)

(** The ways a parser can end. *)
Lemma ParseSsdeepOutput_ends ssdout err :
  match ParseSsdeepOutput ssdout err with
  | Returns _ => True
  | Panics p => p = IndexOutOfRange 1 1
  | Exits _ => False
  end.
Proof.
  destruct err as [e|]; [done|]. rewrite ParseSsdeepOutput_eq.
  destruct (strings.Contains ssdout _); [done|].
  by destruct (cutByte "010" ssdout) as [[??]|].
Qed.

Lemma ParseTRiDOutput_ends tridout err :
  match ParseTRiDOutput tridout err with
  | Returns _ => True
  | Panics p => ∃ n, n < 6 ∧ p = SliceBoundsOutOfRange 6 n
  | Exits _ => False
  end.
Proof.
  destruct err as [e|]; [done|]. rewrite ParseTRiDOutput_eq.
  destruct (strings.Contains tridout _); [done|].
  case_decide; [|done]. eauto.
Qed.

Lemma ParseExiftoolOutput_ends CamelCase exifout err :
  match ParseExiftoolOutput CamelCase exifout err with
  | Returns _ => True
  | Panics _ | Exits _ => False
  end.
Proof.
  by destruct (ParseExiftoolOutput_total CamelCase exifout err) as [? ->].
Qed.

Ltac parser_ends :=
  repeat match goal with
    | H : ParseSsdeepOutput ?o ?e = _ |- _ =>
        let Hends := fresh "Hends" in
        pose proof (ParseSsdeepOutput_ends o e) as Hends;
        rewrite H in Hends; clear H
    | H : ParseTRiDOutput ?o ?e = _ |- _ =>
        let Hends := fresh "Hends" in
        pose proof (ParseTRiDOutput_ends o e) as Hends;
        rewrite H in Hends; clear H
    | H : ParseExiftoolOutput ?c ?o ?e = _ |- _ =>
        let Hends := fresh "Hends" in
        pose proof (ParseExiftoolOutput_ends c o e) as Hends;
        rewrite H in Hends; clear H
    end.

(** Follow a scan path as [follow] does, reducing the fields only. *)
Ltac follow_fields :=
  repeat (first [ progress rewrite ?List.filter_app, ?length_app
                | match goal with
                  | H : detect _ _ _ = _ |- _ => rewrite H
                  | H : run _ _ _ = _ |- _ => rewrite H
                  | H : tempFile _ = _ |- _ => rewrite H
                  | H : stat _ _ = _ |- _ => rewrite H
                  end
                | case_match ];
          simplify_eq; cbn beta iota zeta delta
            [fst snd fi ctxDone invocations stdout w status header body
             Magic SSDeep TRiD Exiftool MarkDown APKFile Mime Description
             default from_option StatusOK StatusBadRequest assign orb] in *).

(** What the handler has done when it returns. *)
Lemma webAvScan_returns E CamelCase r σ σ' :
  webAvScan E CamelCase r σ = (Returns (), σ') →
  ∃ path apkJSON fileInfo out1 err1 out2 err2 out3 err3,
    tempFile E = inl path
    ∧ run E "java" ["-jar"; "apkfile.jar"; path] = (apkJSON, None)
    ∧ run E "ssdeep" [path] = (out1, err1)
    ∧ run E "trid" [path] = (out2, err2)
    ∧ run E "exiftool" [path] = (out3, err3)
    ∧ ParseSsdeepOutput out1 err1 = Returns (SSDeep fileInfo)
    ∧ ParseTRiDOutput out2 err2 = Returns (TRiD fileInfo)
    ∧ ParseExiftoolOutput CamelCase out3 err3 = Returns (Exiftool fileInfo)
    ∧ APKFile fileInfo = apkJSON
    ∧ invocations σ'
      = invocations σ
        ++ [MagicProbe MimeType path; MagicProbe FileDescription path]
        ++ toolCommands path
    ∧ body (w σ') = body (w σ) ++ [Json fileInfo]
    ∧ (status (w σ) = None →
         status (w σ') = Some StatusOK
         ∧ header (w σ') = header (w σ) ++ [contentType])
    ∧ MarkDown fileInfo = "".
Proof.
  destruct r as [[u|]]; run_prog; follow_fields; try done;
    intros [= <-]; simpl; repeat eexists; eauto;
    rewrite <- ?app_assoc; try done.
Qed.


(** The three ways the handler can fault. *)
Lemma webAvScan_panics E CamelCase r σ σ' p :
  webAvScan E CamelCase r σ = (Panics p, σ') →
  (malware r = None ∧ p = NilDereference ∧ σ' = rejected σ)
  ∨ (is_Some (malware r) ∧ w σ' = w σ
     ∧ (p = IndexOutOfRange 1 1
        ∨ ∃ n, n < 6 ∧ p = SliceBoundsOutOfRange 6 n)).
Proof.
  destruct r as [[u|]]; run_prog.
  - follow_fields; try done;
      intros [= <- <-]; parser_ends; subst; simpl; try done; eauto 10.
  - unfold rejected.
    destruct (status (w σ)) eqn:Hst; simpl; rewrite ?Hst;
      intros [= <- <-]; by left.
Qed.

Lemma webAvScan_java_fails E CamelCase r σ u path out e :
  malware r = Some u →
  tempFile E = inl path →
  run E "java" ["-jar"; "apkfile.jar"; path] = (out, Some e) →
  ∃ σ' k,
    webAvScan E CamelCase r σ = (Exits 1, σ')
    ∧ w σ' = w σ
    ∧ invocations σ'
      = invocations σ
        ++ take k [MagicProbe MimeType path; MagicProbe FileDescription path;
                   Command "java" ["-jar"; "apkfile.jar"; path]].
Proof.
  intros Hu Hpath Hjava.
  destruct (webAvScan E CamelCase r σ) as [o σ'] eqn:Hrun.
  exists σ'. revert Hrun. destruct r as [[u'|]]; [|done].
  run_prog. follow_fields; intros Hrun; simplify_eq; simpl;
    first [ by exists 0; rewrite app_nil_r
          | by exists 1
          | by exists 2; rewrite <- app_assoc
          | by exists 3; rewrite <- !app_assoc ].
Qed.

(** X10: a request the handler answers has had, in this order and once
    each, the probe of the mime type, the probe of the description, and the
    tools [java -jar apkfile.jar], [ssdeep], [trid] and [exiftool], all on
    the temporary copy of the upload. *)
Theorem webAvScan_invocations_in_order E CamelCase r σ σ' :
  webAvScan E CamelCase r σ = (Returns (), σ') →
  ∃ path,
    tempFile E = inl path
    ∧ invocations σ'
      = invocations σ
        ++ [MagicProbe MimeType path; MagicProbe FileDescription path]
        ++ toolCommands path.
Proof.
  intros (path & ? & ? & ? & ? & ? & ? & ? & ? & Hrest)%webAvScan_returns.
  exists path. naive_solver.
Qed.

Lemma webAvScan_invocations_in_order_sample :
  invocations first_scan
  = invocations fresh
    ++ [MagicProbe MimeType "/malware/web_081";
        MagicProbe FileDescription "/malware/web_081"]
    ++ toolCommands "/malware/web_081".
Proof.
  destruct (webAvScan_invocations_in_order (sample_env detecting)
              utils.CamelCase sample_request fresh first_scan)
    as (path & Hpath & Hinv); [vm_compute; reflexivity|].
  injection Hpath as <-. exact Hinv.
Defined.

(** X11: a request the handler answers on a response nothing was written to
    gets the status 200, the header [Content-Type: application/json;
    charset=UTF-8] and a body of the one report. *)
Theorem webAvScan_answers_200 E CamelCase r σ σ' :
  status (w σ) = None →
  webAvScan E CamelCase r σ = (Returns (), σ') →
  ∃ fileInfo,
    w σ' = {| status := Some StatusOK;
              header := header (w σ) ++ [contentType];
              body := body (w σ) ++ [Json fileInfo] |}.
Proof.
  intros Hst (? & ? & fileInfo & ? & ? & ? & ? & ? & ? & Hrest)%webAvScan_returns.
  exists fileInfo.
  destruct Hrest as (_ & _ & _ & _ & _ & _ & _ & _ & _ & _ & Hbody & Hhead & _).
  destruct (Hhead Hst) as [Hs Hh]. destruct (w σ'). simpl in *. congruence.
Qed.

Lemma webAvScan_answers_200_sample :
  ∃ fileInfo,
    w first_scan = {| status := Some StatusOK;
                      header := header (w fresh) ++ [contentType];
                      body := body (w fresh) ++ [Json fileInfo] |}.
Proof.
  apply (webAvScan_answers_200 (sample_env detecting) utils.CamelCase
           sample_request fresh first_scan).
  - reflexivity.
  - vm_compute. reflexivity.
Defined.

(** X12: the report the handler writes holds what the three parsers make
    of the outputs and errors of [ssdeep], [trid] and [exiftool] on the
    temporary copy, none of the parsers having faulted, and the output of the
    archive tool as it is, that tool having returned no error; the rendered
    table is left empty. *)
Theorem webAvScan_report_fields E CamelCase r σ σ' :
  webAvScan E CamelCase r σ = (Returns (), σ') →
  ∃ path fileInfo,
    tempFile E = inl path
    ∧ body (w σ') = body (w σ) ++ [Json fileInfo]
    ∧ run E "java" ["-jar"; "apkfile.jar"; path] = (APKFile fileInfo, None)
    ∧ ParseSsdeepOutput (run E "ssdeep" [path]).1 (run E "ssdeep" [path]).2
      = Returns (SSDeep fileInfo)
    ∧ ParseTRiDOutput (run E "trid" [path]).1 (run E "trid" [path]).2
      = Returns (TRiD fileInfo)
    ∧ ParseExiftoolOutput CamelCase (run E "exiftool" [path]).1
        (run E "exiftool" [path]).2
      = Returns (Exiftool fileInfo)
    ∧ MarkDown fileInfo = "".
Proof.
  intros (path & apk & fileInfo & o1 & e1 & o2 & e2 & o3 & e3 & Hpath & Hjava
          & H1 & H2 & H3 & Hs & Ht & Hx & Hapk & _ & Hbody & _ & Hmd)
    %webAvScan_returns.
  exists path, fileInfo. rewrite H1, H2, H3, Hjava, Hapk. done.
Qed.

Lemma webAvScan_report_fields_sample :
  ∃ path fileInfo,
    tempFile (sample_env detecting) = inl path
    ∧ body (w first_scan) = body (w fresh) ++ [Json fileInfo]
    ∧ run (sample_env detecting) "java" ["-jar"; "apkfile.jar"; path]
      = (APKFile fileInfo, None)
    ∧ ParseSsdeepOutput (run (sample_env detecting) "ssdeep" [path]).1
        (run (sample_env detecting) "ssdeep" [path]).2
      = Returns (SSDeep fileInfo)
    ∧ ParseTRiDOutput (run (sample_env detecting) "trid" [path]).1
        (run (sample_env detecting) "trid" [path]).2
      = Returns (TRiD fileInfo)
    ∧ ParseExiftoolOutput utils.CamelCase
        (run (sample_env detecting) "exiftool" [path]).1
        (run (sample_env detecting) "exiftool" [path]).2
      = Returns (Exiftool fileInfo)
    ∧ MarkDown fileInfo = "".
Proof.
  apply (webAvScan_report_fields (sample_env detecting) utils.CamelCase
           sample_request fresh first_scan).
  vm_compute. reflexivity.
Defined.

(** X13: when the archive tool returns an error, the request with an upload
    ends the process with status 1: nothing is written to the response, and
    none of [ssdeep], [trid] and [exiftool] is run. *)
Theorem webAvScan_archive_tool_is_fatal E CamelCase r σ u path out e :
  malware r = Some u →
  tempFile E = inl path →
  run E "java" ["-jar"; "apkfile.jar"; path] = (out, Some e) →
  ∃ σ' k,
    webAvScan E CamelCase r σ = (Exits 1, σ')
    ∧ w σ' = w σ
    ∧ invocations σ'
      = invocations σ
        ++ take k [MagicProbe MimeType path; MagicProbe FileDescription path;
                   Command "java" ["-jar"; "apkfile.jar"; path]].
Proof. apply webAvScan_java_fails. Qed.

Lemma webAvScan_archive_tool_is_fatal_sample :
  ∃ σ' k,
    webAvScan java_fails_env utils.CamelCase sample_request fresh
    = (Exits 1, σ')
    ∧ w σ' = w fresh
    ∧ invocations σ'
      = invocations fresh
        ++ take k [MagicProbe MimeType "/malware/web_081";
                   MagicProbe FileDescription "/malware/web_081";
                   Command "java" ["-jar"; "apkfile.jar"; "/malware/web_081"]].
Proof.
  apply (webAvScan_archive_tool_is_fatal java_fails_env utils.CamelCase
           sample_request fresh
           {| Filename := "sample.apk"; content := "PK" |} "/malware/web_081"
           "Error: Unable to access jarfile apkfile.jar"
           {| Error := "exit status 1" |}); reflexivity.
Defined.

(** X14: the handler can fault in three ways only: by the nil dereference
    of a request without upload, after the 400 and its line of text; by the
    fuzzy-hash parser reading the second line of an output of one line; by
    the identification parser dropping six lines of an output of fewer. In
    the last two nothing has been written to the response. *)
Theorem webAvScan_faults E CamelCase r σ σ' p :
  webAvScan E CamelCase r σ = (Panics p, σ') →
  (malware r = None ∧ p = NilDereference ∧ σ' = rejected σ)
  ∨ (is_Some (malware r) ∧ w σ' = w σ
     ∧ (p = IndexOutOfRange 1 1
        ∨ ∃ n, n < 6 ∧ p = SliceBoundsOutOfRange 6 n)).
Proof. apply webAvScan_panics. Qed.

Lemma webAvScan_faults_sample :
  (webAvScan ssdeep_cut_env utils.CamelCase sample_request fresh).1
  = Panics (IndexOutOfRange 1 1)
  ∧ w (webAvScan ssdeep_cut_env utils.CamelCase sample_request fresh).2
    = w fresh.
Proof.
  split; [vm_compute; reflexivity|].
  destruct (webAvScan_faults ssdeep_cut_env utils.CamelCase sample_request
              fresh
              (webAvScan ssdeep_cut_env utils.CamelCase sample_request
                 fresh).2
              (IndexOutOfRange 1 1))
    as [(Hnone & _)|(_ & Hw & _)];
    [vm_compute; reflexivity|discriminate Hnone|exact Hw].
Defined.






(** X17: with the flag [mime] and a file that exists, when the probe takes
    the result from the channel the action makes that one probe, runs no
    tool, prints the detected type - the error's text when the detection
    failed - and hands on no report. *)
Theorem appAction_mime_flag E CamelCase path rest σ p late :
  stat E path = true →
  detect E (probes σ) MimeType = Delivers p late →
  ∃ σ',
    appAction E CamelCase true (path :: rest) σ = (Returns None, σ')
    ∧ invocations σ' = invocations σ ++ [MagicProbe MimeType path]
    ∧ stdout σ' = stdout σ ++ [probe.recorded p].
Proof.
  intros Hstat Hev.
  destruct (appAction E CamelCase true (path :: rest) σ) as [o σ'] eqn:Hrun.
  exists σ'. revert Hrun. run_prog. follow_fields.
  by intros [= <- <-].
Qed.

Lemma appAction_mime_flag_sample :
  ∃ σ',
    appAction (sample_env detecting) utils.CamelCase true
      ["/malware/sample.apk"] fresh
    = (Returns None, σ')
    ∧ invocations σ'
      = invocations fresh ++ [MagicProbe MimeType "/malware/sample.apk"]
    ∧ stdout σ' = stdout fresh ++ [probe.recorded (detected MimeType)].
Proof.
  apply (appAction_mime_flag (sample_env detecting) utils.CamelCase
           "/malware/sample.apk" [] fresh (detected MimeType) false);
    reflexivity.
Defined.

(** X18: the action of the command line, without the flag [mime] and on a
    file that exists, probes the mime type a second time exactly when the
    first probe took from the channel a result with an error and the
    deadline had not passed by then; in every other case it probes it
    once. *)
Theorem appAction_retry_policy E CamelCase path rest σ :
  stat E path = true →
  attempts MimeType (appAction E CamelCase false (path :: rest) σ).2
  = attempts MimeType σ
    + match detect E (probes σ) MimeType with
      | Delivers (_, Some _) false => 2
      | _ => 1
      end.
Proof.
  intros Hstat. run_prog. rewrite Hstat.
  destruct (detect E _ MimeType) as [[text [e|]] [|]| |] eqn:Hev;
    follow_fields; simpl; rewrite ?List.filter_app, ?length_app; simpl; lia.
Qed.

Lemma appAction_retry_policy_sample :
  attempts MimeType
    (appAction (sample_env transient) utils.CamelCase false
       ["/malware/sample.apk"] fresh).2
  = attempts MimeType fresh
    + match detect (sample_env transient) (probes fresh) MimeType with
      | Delivers (_, Some _) false => 2
      | _ => 1
      end.
Proof.
  apply (appAction_retry_policy (sample_env transient) utils.CamelCase
           "/malware/sample.apk" [] fresh).
  reflexivity.
Defined.

(** X19: when the first probe of the mime type fails, the deadline not
    passed, and the second takes a result from the channel, the report of
    the action of the command line carries what the second probe recorded:
    the detected type, or the text of its error. *)
Theorem appAction_reports_the_retry
    E CamelCase path rest σ σ' fileInfo text e p late :
  detect E (probes σ) MimeType = Delivers (text, Some e) false →
  detect E (probes σ + 1) MimeType = Delivers p late →
  appAction E CamelCase false (path :: rest) σ
  = (Returns (Some fileInfo), σ') →
  Mime (Magic fileInfo) = probe.recorded p.
Proof.
  intros Hev1 Hev2. run_prog. follow_fields; try done.
  all: repeat match goal with
         | H : detect _ (length (List.filter _ (_ ++ _))) _ = _ |- _ =>
             rewrite List.filter_app, length_app in H; simpl in H
         end.
  all: intros [= <- <-]; simpl; congruence.
Qed.

Lemma appAction_reports_the_retry_sample :
  ∃ fileInfo,
    appAction (sample_env transient) utils.CamelCase false
      ["/malware/sample.apk"] fresh
    = (Returns (Some fileInfo), retried.2)
    ∧ Mime (Magic fileInfo) = probe.recorded (detected MimeType).
Proof.
  assert (∃ fileInfo,
            appAction (sample_env transient) utils.CamelCase false
              ["/malware/sample.apk"] fresh
            = (Returns (Some fileInfo), retried.2))
    as [fileInfo Hrun] by (eexists; vm_compute; reflexivity).
  exists fileInfo. split; [exact Hrun|].
  apply (appAction_reports_the_retry (sample_env transient) utils.CamelCase
           "/malware/sample.apk" [] fresh retried.2 fileInfo ""
           {| Error := "magic: could not read the file" |}
           (detected MimeType) false); [reflexivity..|exact Hrun].
Defined.

(** X20: of the holder [fi] the two scan paths write the magic field only:
    however the handler or the action of the command line ends, the other
    fields of [fi] are what they were. *)
Theorem scans_write_the_magic_field_only E CamelCase r mime args σ :
  sameButMagic (fi (webAvScan E CamelCase r σ).2) (fi σ)
  ∧ sameButMagic (fi (appAction E CamelCase mime args σ).2) (fi σ).
Proof.
  split.
  - destruct r as [[u|]]; run_prog; follow_fields; by repeat split.
  - destruct mime, args as [|path rest]; run_prog; follow_fields;
      by repeat split.
Qed.


